(** * Rag-Chatbot-with-sources: the upload pipeline, the content fetcher,
    the chunking step, basic authentication and the Redis session memory.

    Shallow embedding of [src/app.py], [src/utils/services.py],
    [src/utils/middleware.py], [src/utils/memory_management.py] and
    [src/utils/models.py].  Python exceptions are values of [py_exc];
    code that may raise returns an [outcome]; code that talks to external
    services (WordPress API, Chroma, Redis) threads a trace of the calls it
    makes, and what the services answer is an explicit parameter. *)

From Stdlib Require Import String Ascii List ZArith Bool Lia.
From Stdlib Require Import Numbers.DecimalString.
Import ListNotations.
Open Scope string_scope.
Set Warnings "-register-all".

(* ------------------------------------------------------------------ *)
(** ** Python values, exceptions and results *)

(** Values a JSON body decodes to, plus instances of other classes
    ([PObj cls], e.g. a [RedisChatMessageHistory]). *)
Inductive pyval : Type :=
| PNone
| PBool (b : bool)
| PInt (z : Z)
| PStr (s : string)
| PList (xs : list pyval)
| PDict (kvs : list (string * pyval))
| PObj (cls : string).

(** The exceptions the modelled code can raise or see. *)
Inductive py_exc : Type :=
| Exception (msg : string)
| NameError (name : string)
| TypeError (msg : string)
| ValueError (msg : string)
| KeyError (msg : string)
| RuntimeError (msg : string)
| RequestException (cls : string) (msg : string)  (* requests.exceptions.* *)
| ChromaError (msg : string)
| HTTPException (status_code : Z) (detail : string).

(** Python class name of an exception value. *)
Definition exc_class (e : py_exc) : string :=
  match e with
  | Exception _ => "Exception"
  | NameError _ => "NameError"
  | TypeError _ => "TypeError"
  | ValueError _ => "ValueError"
  | KeyError _ => "KeyError"
  | RuntimeError _ => "RuntimeError"
  | RequestException cls _ => cls
  | ChromaError _ => "ChromaError"
  | HTTPException _ _ => "HTTPException"
  end.

(** [str(e)]; for starlette's [HTTPException] it is ["{code}: {detail}"]. *)
Definition Z_to_string (z : Z) : string := NilEmpty.string_of_int (Z.to_int z).

Definition exc_str (e : py_exc) : string :=
  match e with
  | Exception m | TypeError m | ValueError m | KeyError m
  | RuntimeError m | ChromaError m => m
  | RequestException _ m => m
  | NameError n => "name '" ++ n ++ "' is not defined"
  | HTTPException c d => Z_to_string c ++ ": " ++ d
  end.

Inductive outcome (A : Type) : Type :=
| Ret (a : A)
| Raise (e : py_exc).
Arguments Ret {A} a.
Arguments Raise {A} e.

Definition raised {A} (o : outcome A) : option py_exc :=
  match o with Ret _ => None | Raise e => Some e end.

(** Python truthiness ([if not text]). *)
Definition truthy (v : pyval) : bool :=
  match v with
  | PNone => false
  | PBool b => b
  | PInt z => negb (Z.eqb z 0)
  | PStr s => negb (String.eqb s "")
  | PList xs => match xs with [] => false | _ => true end
  | PDict kvs => match kvs with [] => false | _ => true end
  | PObj _ => true
  end.

(* ------------------------------------------------------------------ *)
(** ** String helpers *)

Definition ch (n : nat) : ascii := ascii_of_nat n.

(** [s] occurs in [t] as a substring. *)
Fixpoint contains (s t : string) : bool :=
  if String.prefix s t then true
  else match t with
       | EmptyString => false
       | String _ t' => contains s t'
       end.

Definition starts_with (p s : string) : bool := String.prefix p s.

(** Python's [str.strip()] on ASCII text: the characters for which
    [str.isspace()] holds are 9-13, 28-31 and the space. *)
Definition is_py_space (c : ascii) : bool :=
  let n := nat_of_ascii c in
  orb (andb (Nat.leb 9 n) (Nat.leb n 13))
      (orb (andb (Nat.leb 28 n) (Nat.leb n 31)) (Nat.eqb n 32)).

Fixpoint lstrip (s : string) : string :=
  match s with
  | EmptyString => EmptyString
  | String c s' => if is_py_space c then lstrip s' else s
  end.

Fixpoint rev_str (s : string) : string :=
  match s with
  | EmptyString => EmptyString
  | String c s' => rev_str s' ++ String c EmptyString
  end.

Definition rstrip (s : string) : string := rev_str (lstrip (rev_str s)).

Definition strip (s : string) : string := rstrip (lstrip s).

(** [sep.join(xs)] *)
Fixpoint join (sep : string) (xs : list string) : string :=
  match xs with
  | [] => ""
  | [x] => x
  | x :: xs' => x ++ sep ++ join sep xs'
  end.

(* ------------------------------------------------------------------ *)
(** ** The chunking step of [data_loader]

    [data_loader] builds [CharacterTextSplitter(chunk_size=1000,
    chunk_overlap=0)] and calls [split_documents] on the loaded documents.
    The splitter is langchain_text_splitters' [CharacterTextSplitter]
    with its defaults: [separator="\n\n"], [keep_separator=False],
    [is_separator_regex=False], [strip_whitespace=True],
    [length_function=len].  Its [split_text] is
    [_merge_splits(_split_text_with_regex(text, re.escape(sep), False), sep)]. *)

Definition nl : ascii := ch 10.

(** The default separator ["\n\n"]. *)
Definition default_separator : string := String nl (String nl EmptyString).

(** [re.split(re.escape("\n\n"), text)]: cut at every leftmost,
    non-overlapping occurrence of ["\n\n"]. *)
Fixpoint re_split_nn (s : string) : list string :=
  match s with
  | EmptyString => [EmptyString]
  | String c1 rest =>
      match rest with
      | String c2 rest' =>
          if andb (Ascii.eqb c1 nl) (Ascii.eqb c2 nl)
          then EmptyString :: re_split_nn rest'
          else match re_split_nn rest with
               | [] => [String c1 EmptyString]
               | x :: xs => String c1 x :: xs
               end
      | EmptyString => [String c1 EmptyString]
      end
  end.

(** [_split_text_with_regex(text, separator, keep_separator=False)]:
    the [re.split] pieces with the empty ones dropped. *)
Definition split_text_with_regex (text : string) : list string :=
  filter (fun x => negb (String.eqb x "")) (re_split_nn text).

Record TextSplitter : Type := {
  chunk_size : Z;
  chunk_overlap : Z;
  strip_whitespace : bool
}.

(** [CharacterTextSplitter(chunk_size=1000, chunk_overlap=0)] *)
Definition data_loader_splitter : TextSplitter :=
  {| chunk_size := 1000; chunk_overlap := 0; strip_whitespace := true |}.

Section Merge.
Variable sp : TextSplitter.
Variable separator : string.

Definition len (s : string) : Z := Z.of_nat (String.length s).
Definition separator_len : Z := len separator.

(** [_join_docs] *)
Definition join_docs (docs : list string) : option string :=
  let text := join separator docs in
  let text := if strip_whitespace sp then strip text else text in
  if String.eqb text "" then None else Some text.

Definition sep_if (b : bool) : Z := if b then separator_len else 0.

Definition nonempty {A} (l : list A) : bool :=
  match l with [] => false | _ => true end.

Definition longer_than_one {A} (l : list A) : bool :=
  match l with _ :: _ :: _ => true | _ => false end.

(** The inner [while] of [_merge_splits]: pop [current_doc[0]] while
    [total > chunk_overlap] or the next piece of length [d_len] still
    does not fit.  (On an empty [current_doc] Python would fail on
    [current_doc[0]]; the loop condition is false there whenever
    [total] is the joined length of [current_doc].) *)
Fixpoint pop_front (current_doc : list string) (total d_len : Z)
  : list string * Z :=
  match current_doc with
  | [] => ([], total)
  | d0 :: rest =>
      if orb (Z.gtb total (chunk_overlap sp))
             (andb (Z.gtb (total + d_len + sep_if (nonempty current_doc))
                          (chunk_size sp))
                   (Z.gtb total 0))
      then pop_front rest (total - (len d0 + sep_if (longer_than_one current_doc)))
                     d_len
      else (current_doc, total)
  end.

Definition opt_cons (o : option string) (docs : list string) : list string :=
  match o with Some d => (docs ++ [d])%list | None => docs end.

(** The [for d in splits] loop of [_merge_splits]; [docs] is the list of
    chunks emitted so far. *)
Fixpoint merge_loop (splits : list string) (docs current_doc : list string)
  (total : Z) : list string :=
  match splits with
  | [] => opt_cons (join_docs current_doc) docs
  | d :: splits' =>
      let d_len := len d in
      let '(docs', current_doc', total') :=
        if Z.gtb (total + d_len + sep_if (nonempty current_doc)) (chunk_size sp)
        then
          if nonempty current_doc then
            let docs' := opt_cons (join_docs current_doc) docs in
            let '(cd, t) := pop_front current_doc total d_len in
            (docs', cd, t)
          else (docs, current_doc, total)
        else (docs, current_doc, total) in
      let current_doc'' := (current_doc' ++ [d])%list in
      merge_loop splits' docs' current_doc''
        (total' + d_len + sep_if (longer_than_one current_doc''))
  end.

(** [_merge_splits(splits, separator)] *)
Definition merge_splits (splits : list string) : list string :=
  merge_loop splits [] [] 0.

End Merge.

(** [CharacterTextSplitter.split_text] with the default separator. *)
Definition split_text (sp : TextSplitter) (text : string) : list string :=
  merge_splits sp default_separator (split_text_with_regex text).

Record Document : Type := {
  page_content : string;
  metadata : list (string * pyval)
}.

(** [split_documents] = [create_documents(texts, metadatas)]: one
    document per chunk, with a copy of the source metadata. *)
Definition split_documents (sp : TextSplitter) (docs : list Document)
  : list Document :=
  flat_map (fun doc =>
              map (fun c => {| page_content := c; metadata := metadata doc |})
                  (split_text sp (page_content doc)))
           docs.

(** The chunking step of [data_loader]. *)
Definition chunking_step (documents : list Document) : list Document :=
  split_documents data_loader_splitter documents.

Fixpoint repeat_str (c : ascii) (n : nat) : string :=
  match n with O => EmptyString | S k => String c (repeat_str c k) end.

(* ------------------------------------------------------------------ *)
(** ** External calls, traced *)

(** Calls the code makes to the WordPress API, to Chroma and to Redis. *)
Inductive event : Type :=
| EvHttpGet (url : string) (timeout : Z)
| EvChromaClient
| EvChromaReset
| EvGetOrCreate (name : string)
| EvAdd (collection : string) (id : string)
        (meta : list (string * pyval)) (content : string)
| EvRedisClient (url : string) (session_id : string)
| EvRedisAdd (session_id : string) (msg_type : string) (content : string).

(** A computation that records the calls it makes and may raise. *)
Definition M (A : Type) : Type := (list event * outcome A)%type.

Definition ret {A} (a : A) : M A := ([], Ret a).
Definition throw {A} (e : py_exc) : M A := ([], Raise e).
Definition emit (ev : event) : M unit := ([ev], Ret tt).
Definition lift {A} (o : outcome A) : M A := ([], o).

Definition bind {A B} (m : M A) (k : A -> M B) : M B :=
  match m with
  | (t, Ret a) => let (t', r) := k a in ((t ++ t')%list, r)
  | (t, Raise e) => (t, Raise e)
  end.

(** [try: m except ...: h e] *)
Definition catch {A} (m : M A) (h : py_exc -> M A) : M A :=
  match m with
  | (t, Raise e) => let (t', r) := h e in ((t ++ t')%list, r)
  | _ => m
  end.

Notation "x <- m ;; k" := (bind m (fun x => k))
  (at level 61, m at next level, right associativity).

(** What the outside world answers. *)
Inductive get_outcome : Type :=
| GotResponse (status_code : Z) (reason : string) (text : string)
              (json : string + pyval)  (* [inl]: [response.json()] fails *)
| RequestFailed (cls : string) (msg : string).
    (* [session.get] raised the [requests.exceptions] class [cls] *)

Record world : Type := {
  wp_get : string -> Z -> get_outcome;   (* [session.get(url, timeout=...)] *)
  files : list (string * string);        (* files [TextLoader] can open *)
  read_fd : Z -> option string;          (* [open(fd)] on an integer *)
  chroma_err : event -> option string;   (* a failing Chroma call *)
  uuid1 : nat -> string                  (* successive [uuid.uuid1()] values *)
}.

Fixpoint assoc {A} (k : string) (kvs : list (string * A)) : option A :=
  match kvs with
  | [] => None
  | (k', v) :: kvs' => if String.eqb k k' then Some v else assoc k kvs'
  end.

(* ------------------------------------------------------------------ *)
(** ** [services.get_wordpress_api_json] *)

Definition is_timeout_class (cls : string) : bool :=
  existsb (String.eqb cls) ["Timeout"; "ConnectTimeout"; "ReadTimeout"].

Definition non200_message (status_code : Z) (reason text : string) : string :=
  "API response: " ++ Z_to_string status_code ++ " " ++ reason ++ " - " ++ text.

Definition timeout_message (api_call_timeout : Z) : string :=
  "API call request timed out after " ++ Z_to_string api_call_timeout
  ++ " seconds!".

Definition transport_message (api_url msg : string) : string :=
  "Error during API call to " ++ api_url ++ ": " ++ msg.

Definition get_wordpress_api_json (w : world) (api_url : string)
  (api_call_timeout : Z) : M pyval :=
  catch
    (_ <- emit (EvHttpGet api_url api_call_timeout) ;;
     match wp_get w api_url api_call_timeout with
     | GotResponse code reason text json =>
         if Z.eqb code 200 then
           match json with
           | inr v => ret v
           | inl m => throw (RequestException "JSONDecodeError" m)
           end
         else throw (Exception (non200_message code reason text))
     | RequestFailed cls m => throw (RequestException cls m)
     end)
    (fun e =>
       match e with
       | RequestException cls m =>
           if is_timeout_class cls
           then throw (Exception (timeout_message api_call_timeout))
           else throw (Exception (transport_message api_url m))
       | _ => throw e
       end).

(* ------------------------------------------------------------------ *)
(** ** [services.data_loader] *)

(** [repr(v)] and [str(v)] of a decoded JSON value (quotes inside
    strings are not escaped). *)
Fixpoint py_repr (v : pyval) : string :=
  match v with
  | PNone => "None"
  | PBool b => if b then "True" else "False"
  | PInt z => Z_to_string z
  | PStr s => "'" ++ s ++ "'"
  | PList xs => "[" ++ join ", " (map py_repr xs) ++ "]"
  | PDict kvs =>
      "{" ++ join ", " (map (fun '(k, x) => "'" ++ k ++ "': " ++ py_repr x) kvs)
      ++ "}"
  | PObj cls => "<" ++ cls ++ " object>"
  end.

Definition py_str (v : pyval) : string :=
  match v with PStr s => s | _ => py_repr v end.

(** [TextLoader(file_path).load()]: the argument is opened as a file;
    any failure becomes [RuntimeError(f"Error loading {file_path}")]. *)
Definition text_loader_load (w : world) (file_path : pyval)
  : outcome (list Document) :=
  let fail := Raise (RuntimeError ("Error loading " ++ py_str file_path)) in
  let doc (contents : string) :=
    Ret [{| page_content := contents;
            metadata := [("source", PStr (py_str file_path))] |}] in
  match file_path with
  | PStr p => match assoc p (files w) with Some c => doc c | None => fail end
  | PInt fd => match read_fd w fd with Some c => doc c | None => fail end
  | PBool b => match read_fd w (if b then 1 else 0)%Z with
               | Some c => doc c | None => fail end
  | _ => fail   (* open() raises TypeError on other types *)
  end.

(** One Chroma client call. *)
Definition chroma_call (w : world) (ev : event) : M unit :=
  _ <- emit ev ;;
  match chroma_err w ev with
  | None => ret tt
  | Some m => throw (ChromaError m)
  end.

(** [for doc in docs: collection.add(ids=[str(uuid.uuid1())], ...)] *)
Fixpoint add_all (w : world) (collection_name : string) (docs : list Document)
  (n : nat) : M unit :=
  match docs with
  | [] => ret tt
  | doc :: docs' =>
      _ <- chroma_call w (EvAdd collection_name (uuid1 w n) (metadata doc)
                                (page_content doc)) ;;
      add_all w collection_name docs' (S n)
  end.

Definition data_loader (w : world) (text : pyval) (collection_name : string)
  : M unit :=
  if orb (negb (truthy text)) (negb (truthy (PStr collection_name)))
  then throw (ValueError
                "Text and collection name must be provided and cannot be empty.")
  else
    catch
      (documents <- lift (text_loader_load w text) ;;
       let docs := split_documents data_loader_splitter documents in
       _ <- chroma_call w EvChromaClient ;;
       _ <- chroma_call w EvChromaReset ;;
       _ <- chroma_call w (EvGetOrCreate collection_name) ;;
       add_all w collection_name docs 0)
      (fun e => throw e).

(* ------------------------------------------------------------------ *)
(** ** [middleware.basic_auth_middleware] *)

Record HTTPBasicCredentials : Type := {
  username : string;
  password : string
}.

Definition correct_username : string := "admin".
Definition correct_password : string := "password".
Definition auth_failure_detail : string := "Incorrect email or password".

Definition basic_auth_middleware (credentials : HTTPBasicCredentials)
  : outcome bool :=
  if andb (String.eqb (username credentials) correct_username)
          (String.eqb (password credentials) correct_password)
  then Ret true
  else Raise (HTTPException 401 auth_failure_detail).

(* ------------------------------------------------------------------ *)
(** ** [app.upload_data] *)

Record UploadRequest : Type := {
  url : string;
  create_collection : bool;
  collection_name : option string   (* [Optional[str] = None] *)
}.

Record UploadResponse : Type := {
  message : string;
  status : string
}.

(** The global names of [app.py] (its imports and top-level
    definitions).  [requests] is not among them: [app.py] never imports
    it. *)
Definition app_globals : list string :=
  ["TITLE"; "DESCRIPTION"; "__version__"; "AUTHOR"; "EMAIL";
   "CORSMiddleware"; "FastAPI"; "Depends"; "HTTPException"; "Response";
   "Request"; "jwt_auth_middleware"; "basic_auth_middleware";
   "get_wordpress_api_json"; "data_loader"; "UploadRequest";
   "UploadResponse"; "create_logger"; "_logger"; "app"; "startup";
   "check_liveness"; "read_root"; "chatWithDocs"; "upload_data"].

(** Evaluating a global name in a module whose globals are [g]. *)
Definition name_lookup (g : list string) (n : string) : outcome unit :=
  if existsb (String.eqb n) g then Ret tt else Raise (NameError n).

Definition is_request_exception (e : py_exc) : bool :=
  match e with RequestException _ _ => true | _ => false end.

Definition fetch_error_detail (e : py_exc) : string :=
  "An error occurred while fetching data from WordPress API: " ++ exc_str e.

Definition unexpected_error_detail (e : py_exc) : string :=
  "An unexpected error occurred: " ++ exc_str e.

(** The two handlers of [upload_data]'s [try].  The class expression
    [requests.RequestException] of the first one is evaluated when an
    exception reaches it; if that raises, the new exception propagates
    and [except Exception] is not tried.  Every modelled exception is an
    [Exception]. *)
Definition upload_handlers (g : list string) (e : py_exc) : M UploadResponse :=
  _ <- lift (name_lookup g "requests") ;;
  if is_request_exception e
  then throw (HTTPException 500 (fetch_error_detail e))
  else throw (HTTPException 500 (unexpected_error_detail e)).

(** [collection_name = request.collection_name if request.collection_name
    else "Default_Collection"] *)
Definition effective_collection_name (request : UploadRequest) : string :=
  match collection_name request with
  | Some s => if truthy (PStr s) then s else "Default_Collection"
  | None => "Default_Collection"
  end.

Definition upload_success : UploadResponse :=
  {| message := "Data loaded successfully"; status := "success" |}.

(** [upload_data(request, verification)] run in a module whose globals
    are [g] ([app_globals] for [app.py] as written). *)
Definition upload_data_in (g : list string) (w : world)
  (request : UploadRequest) (verification : bool) : M UploadResponse :=
  catch
    (_ <- (if negb verification
           then throw (HTTPException 401 "User not authorized.")
           else ret tt) ;;
     let wp_url := url request in
     let create_collection := create_collection request in
     let collection_name := effective_collection_name request in
     (* requests.Session() *)
     _ <- lift (name_lookup g "requests") ;;
     wp_data <- get_wordpress_api_json w wp_url 600 ;;
     _ <- data_loader w wp_data collection_name ;;
     ret upload_success)
    (upload_handlers g).

Definition upload_data (w : world) (request : UploadRequest)
  (verification : bool) : M UploadResponse :=
  upload_data_in app_globals w request verification.

(** The HTTP answer FastAPI gives: an [HTTPException] becomes its status
    and [{"detail": ...}]; any other exception a plain 500. *)
Inductive http_body : Type :=
| JsonBody (fields : list (string * string))
| DetailBody (detail : string)
| ServerErrorBody.

Record http_response : Type := {
  http_status : Z;
  http_body_of : http_body
}.

Definition to_http (o : outcome UploadResponse) : http_response :=
  match o with
  | Ret r => {| http_status := 200;
                http_body_of := JsonBody [("message", message r);
                                          ("status", status r)] |}
  | Raise (HTTPException c d) => {| http_status := c; http_body_of := DetailBody d |}
  | Raise _ => {| http_status := 500; http_body_of := ServerErrorBody |}
  end.

(** [POST /upload]: the [basic_auth_middleware] dependency runs first;
    the handler body runs only with the value it returns. *)
Definition post_upload_in (g : list string) (w : world)
  (credentials : HTTPBasicCredentials) (request : UploadRequest)
  : list event * http_response :=
  match basic_auth_middleware credentials with
  | Raise e => ([], to_http (Raise e))
  | Ret verification =>
      let (t, o) := upload_data_in g w request verification in (t, to_http o)
  end.

Definition post_upload (w : world) (credentials : HTTPBasicCredentials)
  (request : UploadRequest) : list event * http_response :=
  post_upload_in app_globals w credentials request.

(* ------------------------------------------------------------------ *)
(** ** [memory_management.ManageMemory] *)

Record ManageMemory : Type := {
  redis_url : string;
  redis_timeout : Z
}.

(** [ManageMemory(redis_url="http://localhost:6379", ttl=600)] *)
Definition ManageMemory_default : ManageMemory :=
  {| redis_url := "http://localhost:6379"; redis_timeout := 600 |}.

(** [RedisChatMessageHistory(url=..., ttl=..., session_id=...)] builds its
    client with langchain's [get_client(redis_url=url)]: URLs starting with
    [redis+sentinel] or [rediss+sentinel] get a Sentinel client (which
    pings the sentinel), every other URL goes to [redis.from_url], whose
    [parse_url] first rejects the schemes it does not know. *)
Definition redis_sentinel_url (u : string) : bool :=
  orb (starts_with "redis+sentinel" u) (starts_with "rediss+sentinel" u).

Definition redis_scheme_ok (u : string) : bool :=
  orb (starts_with "redis://" u)
      (orb (starts_with "rediss://" u) (starts_with "unix://" u)).

(** [client_err]: what building the client raises past the scheme check,
    if anything (a sentinel that does not answer, a port that is not a
    number, [redis] not installed, ...). *)
Definition RedisChatMessageHistory (client_err : option string) (u : string)
  (ttl : Z) (session_id : string) : outcome pyval :=
  let built :=
    match client_err with
    | Some m => Raise (Exception m)
    | None => Ret (PObj "RedisChatMessageHistory")
    end in
  if redis_sentinel_url u then built
  else if redis_scheme_ok u then built
  else Raise (ValueError
    "Redis URL must specify one of the following schemes (redis://, rediss://, unix://)").

Definition obind {A B} (o : outcome A) (k : A -> outcome B) : outcome B :=
  match o with Ret a => k a | Raise e => Raise e end.

Fixpoint omap {A B} (f : A -> outcome B) (xs : list A) : outcome (list B) :=
  match xs with
  | [] => Ret []
  | x :: xs' => obind (f x) (fun y => obind (omap f xs') (fun ys => Ret (y :: ys)))
  end.

(** [json.loads(json.dumps(v))]: [json.dumps] refuses class instances. *)
Fixpoint json_roundtrip (v : pyval) : outcome pyval :=
  match v with
  | PObj cls =>
      Raise (TypeError ("Object of type " ++ cls ++ " is not JSON serializable"))
  | PList xs =>
      obind ((fix go (xs : list pyval) : outcome (list pyval) :=
                match xs with
                | [] => Ret []
                | x :: xs' => obind (json_roundtrip x)
                                (fun y => obind (go xs') (fun ys => Ret (y :: ys)))
                end) xs) (fun ys => Ret (PList ys))
  | PDict kvs =>
      obind ((fix go (kvs : list (string * pyval)) : outcome (list (string * pyval)) :=
                match kvs with
                | [] => Ret []
                | (k, x) :: kvs' => obind (json_roundtrip x)
                                (fun y => obind (go kvs') (fun ys => Ret ((k, y) :: ys)))
                end) kvs) (fun ys => Ret (PDict ys))
  | _ => Ret v
  end.

Record chat_message : Type := {
  msg_type : string;
  msg_content : string
}.

Definition message_types : list string :=
  ["human"; "ai"; "system"; "chat"; "function"; "tool";
   "HumanMessageChunk"; "AIMessageChunk"; "SystemMessageChunk";
   "ChatMessageChunk"; "FunctionMessageChunk"; "ToolMessageChunk"].

(** langchain's [_message_from_dict(message)] *)
Definition message_from_dict (v : pyval) : outcome chat_message :=
  match v with
  | PDict kvs =>
      match assoc "type" kvs with
      | None => Raise (KeyError "type")
      | Some (PStr t) =>
          if existsb (String.eqb t) message_types then
            match assoc "data" kvs with
            | None => Raise (KeyError "data")
            | Some (PDict data) =>
                match assoc "content" data with
                | Some (PStr c) => Ret {| msg_type := t; msg_content := c |}
                | _ => Raise (ValueError "content: field required")
                end
            | Some _ => Raise (TypeError "argument after ** must be a mapping")
            end
          else Raise (ValueError ("Got unexpected message type: " ++ t))
      | Some t => Raise (ValueError ("Got unexpected message type: " ++ py_str t))
      end
  | _ => Raise (TypeError "indices must be integers")
  end.

(** [messages_from_dict(messages)] = [[_message_from_dict(m) for m in messages]] *)
Definition messages_from_dict (v : pyval) : outcome (list chat_message) :=
  match v with
  | PList xs => omap message_from_dict xs
  | PDict kvs => omap (fun kv => message_from_dict (PStr (fst kv))) kvs
  | PStr s => omap (fun c => message_from_dict (PStr (String c EmptyString)))
                   (list_ascii_of_string s)
  | _ => Raise (TypeError ("'" ++ py_str v ++ "' object is not iterable"))
  end.

Record ConversationBufferWindowMemory : Type := {
  chat_memory : list chat_message;
  memory_key : string;
  input_key : string;
  k : nat
}.

(** The window it hands to a prompt: [messages[-k * 2:] if k > 0 else []]. *)
Definition buffer_as_messages (m : ConversationBufferWindowMemory)
  : list chat_message :=
  match k m with
  | O => []
  | _ => skipn (length (chat_memory m) - 2 * k m) (chat_memory m)
  end.

Definition retrieve_error : string := "Error retrieving messages from Redis".

Definition get_message_from_redis (client_err : option string) (self : ManageMemory)
  (session_id : string) : outcome ConversationBufferWindowMemory :=
  let body :=
    obind (RedisChatMessageHistory client_err (redis_url self) (redis_timeout self)
                                   session_id)
      (fun message_history =>
    obind (json_roundtrip message_history) (fun retrieve_from_db =>
    obind (messages_from_dict retrieve_from_db) (fun retrieved_messages =>
    Ret {| chat_memory := retrieved_messages; memory_key := "chat_history";
           input_key := "input"; k := 4 |}))) in
  match body with
  | Ret m => Ret m
  | Raise _ => Raise (Exception retrieve_error)
  end.

(** [messages : Dict[str, str]] *)
Definition has_key (key : string) (messages : list (string * string)) : bool :=
  match assoc key messages with Some _ => true | None => false end.

Definition dict_get (key : string) (messages : list (string * string)) : string :=
  match assoc key messages with Some v => v | None => "" end.

Definition missing_keys_message : string :=
  "Both 'user' and 'ai_assistant' must be specified in messages".

Definition add_error : string := "Error adding messages to Redis".

(** One Redis call; [redis_err] says which calls fail (for
    [EvRedisClient], what building the client raises past the scheme
    check). *)
Definition redis_call (redis_err : event -> option string) (ev : event) : M unit :=
  _ <- emit ev ;;
  match redis_err ev with
  | None => ret tt
  | Some m => throw (Exception m)
  end.

Definition add_messages_to_redis (self : ManageMemory) (session_id : string)
  (messages : list (string * string)) (redis_err : event -> option string)
  : M unit :=
  if orb (negb (has_key "user" messages)) (negb (has_key "ai_assistant" messages))
  then throw (KeyError missing_keys_message)
  else
    catch
      (_ <- emit (EvRedisClient (redis_url self) session_id) ;;
       _ <- lift (RedisChatMessageHistory
                    (redis_err (EvRedisClient (redis_url self) session_id))
                    (redis_url self) (redis_timeout self) session_id) ;;
       _ <- redis_call redis_err (EvRedisAdd session_id "human" (dict_get "user" messages)) ;;
       redis_call redis_err (EvRedisAdd session_id "ai" (dict_get "ai_assistant" messages)))
      (fun _ => throw (Exception add_error)).

(* ------------------------------------------------------------------ *)
(** ** [services.create_vector_db_from_chroma] *)

(** A [Chroma] vector store bound to a collection of the client. *)
Record ChromaDB : Type := {
  vdb_collection : string;
  vdb_embedding : string
}.

(** [Config.hf]: [HuggingFaceEmbeddings] with this model. *)
Definition embedding_model_name : string := "sentence-transformers/all-mpnet-base-v2".

(** [Chroma(client=client, collection_name=..., embedding_function=...)]
    asks the client for [get_or_create_collection(collection_name)]. *)
Definition create_vector_db_from_chroma (w : world) (collection_name : string)
  (embeddings : string) : M ChromaDB :=
  if negb (truthy (PStr collection_name))
  then throw (ValueError "Collection name must be provided and cannot be empty.")
  else
    catch
      (_ <- chroma_call w EvChromaClient ;;
       _ <- chroma_call w (EvGetOrCreate collection_name) ;;
       ret {| vdb_collection := collection_name; vdb_embedding := embeddings |})
      (fun e => throw e).

(* ------------------------------------------------------------------ *)
(** ** [app.read_root] and [app.chatWithDocs] *)

Definition TITLE : string := "RAG-based Query Suggestion Chatbot".
Definition version : string := "1.0".
Definition AUTHOR : string := "Sourav Das".
Definition EMAIL : string := "sourav.bt.kt@gmail.com".
Definition DESCRIPTION : string :=
  "A versatile, intelligent chatbot that utilizes a Retrieval-Augmented Generation (RAG) system enhanced"
  ++ String nl "    with a Chain of Thought (CoT) strategy. This chatbot will be integrated into various WordPress blogs and sites, designed to"
  ++ String nl "    handle and adapt to a wide range of topics, maintaining logical and contextually relevant interactions.".

Definition welcome_message : string :=
  TITLE ++ " v" ++ version ++ " 🚀 " ++ DESCRIPTION ++ " ✨ "
  ++ "author: " ++ AUTHOR ++ " email: " ++ EMAIL ++ " 📄  "
  ++ "Check out /docs or /redoc for the API documentation!".

Definition read_root (verification : bool) : outcome string :=
  if verification then Ret welcome_message
  else Raise (HTTPException 401 "User not authorized.").

(** The body of [chatWithDocs] returns [None] when it does not raise. *)
Definition chatWithDocs (verification : bool) : outcome unit :=
  if negb verification then Raise (HTTPException 401 "User not authorized.")
  else Ret tt.

(** Body of a plain endpoint's answer: a JSON string, JSON [null], an
    error detail or a bare server error. *)
Inductive plain_body : Type :=
| BodyString (s : string)
| BodyNull
| BodyDetail (detail : string)
| BodyServerError.

Definition exc_to_plain (e : py_exc) : Z * plain_body :=
  match e with
  | HTTPException c d => (c, BodyDetail d)
  | _ => (500%Z, BodyServerError)
  end.

(** [GET /] with its [basic_auth_middleware] dependency. *)
Definition get_root (credentials : HTTPBasicCredentials) : Z * plain_body :=
  match basic_auth_middleware credentials with
  | Raise e => exc_to_plain e
  | Ret v => match read_root v with
             | Ret s => (200%Z, BodyString s)
             | Raise e => exc_to_plain e
             end
  end.

(** [POST /chat] with its [basic_auth_middleware] dependency. *)
Definition post_chat (credentials : HTTPBasicCredentials) : Z * plain_body :=
  match basic_auth_middleware credentials with
  | Raise e => exc_to_plain e
  | Ret v => match chatWithDocs v with
             | Ret _ => (200%Z, BodyNull)
             | Raise e => exc_to_plain e
             end
  end.

(* ------------------------------------------------------------------ *)
(** ** [middleware.loggingMiddleware]

    The response [call_next] returns streams its body through
    [body_iterator]; the middleware reads that same iterator to the end
    and returns the same response object.  The [time_taken] field
    (a float from [time.perf_counter]) is not modelled. *)

Record StreamingResponse : Type := {
  resp_status_code : Z;
  body_iterator : list string   (* the sections still to be sent *)
}.

Record HttpRequest : Type := {
  req_path : string;
  req_method : string;
  req_body : string
}.

Record ApiLog : Type := {
  log_path : string;
  log_method : string;
  log_body : string;
  log_status : string;
  log_status_code : Z;
  log_response_body : pyval
}.

(** [str(resp_body)] of a list of [bytes] sections. *)
Definition bytes_list_str (sections : list string) : string :=
  "[" ++ join ", " (map (fun b => "b'" ++ b ++ "'") sections) ++ "]".

Section Logging.
(** [json.loads] on a decoded section. *)
Variable json_loads : string -> option pyval.

(** [try: json.loads(resp_body[0].decode()) except: str(resp_body)] *)
Definition logged_response_body (resp_body : list string) : pyval :=
  match resp_body with
  | first :: _ => match json_loads first with
                  | Some v => v
                  | None => PStr (bytes_list_str resp_body)
                  end
  | [] => PStr (bytes_list_str resp_body)   (* IndexError *)
  end.

Definition loggingMiddleware (request : HttpRequest)
  (response : StreamingResponse) : StreamingResponse * ApiLog :=
  let resp_body := body_iterator response in
  (* the iterator is exhausted by the comprehension *)
  let response' := {| resp_status_code := resp_status_code response;
                      body_iterator := [] |} in
  let overall_status :=
    if Z.ltb (resp_status_code response) 400 then "successful" else "failed" in
  (response',
   {| log_path := req_path request; log_method := req_method request;
      log_body := req_body request; log_status := overall_status;
      log_status_code := resp_status_code response;
      log_response_body := logged_response_body resp_body |}).
End Logging.

(* ------------------------------------------------------------------ *)
(** ** [config.Config]

    The class body runs once, at import.  A failure is the pair of the
    Python exception class and its message. *)

Definition lower_char (c : ascii) : ascii :=
  let n := nat_of_ascii c in
  if andb (Nat.leb 65 n) (Nat.leb n 90) then ascii_of_nat (n + 32) else c.

(** [str.lower()] on ASCII text. *)
Fixpoint lower (s : string) : string :=
  match s with
  | EmptyString => EmptyString
  | String c s' => String (lower_char c) (lower s')
  end.

Inductive LLM : Type :=
| ChatAnthropic (model_name api_key : string) (temperature : string)
| ChatOpenAI (model api_key : string)
| CTransformers (model model_type : string) (config : list (string * string)).

Record Embeddings : Type := {
  hf_model_name : string;
  hf_model_kwargs : list (string * string);
  hf_encode_kwargs : list (string * string)
}.

Record ConfigClass : Type := {
  model_type : string;
  llm : option LLM;   (* [None]: the class has no [llm] attribute *)
  hf : Embeddings
}.

(** What the process sees: environment variables, which modules import,
    and whether a constructor fails. *)
Record ConfigEnv : Type := {
  getenv : string -> option string;
  importable : string -> bool;
  llm_error : LLM -> option (string * string);
  hf_error : Embeddings -> option (string * string)
}.

Definition py_error (A : Type) : Type := ((string * string) + A)%type.

(** [any(value == "" or value is None for value in values)] *)
Definition any_missing (values : list (option string)) : bool :=
  existsb (fun v => match v with
                    | None => true
                    | Some s => String.eqb s ""
                    end) values.

Definition unwrap (v : option string) : string :=
  match v with Some s => s | None => "" end.

Definition build_llm (env : ConfigEnv) (module : string) (import_msg : string)
  (m : LLM) : py_error (option LLM) :=
  if negb (importable env module) then inl ("ImportError", import_msg)
  else match llm_error env m with
       | Some err => inl err
       | None => inr (Some m)
       end.

Definition config_llm (env : ConfigEnv) (mt : string) : py_error (option LLM) :=
  if String.eqb (lower mt) "claude" then
    let model_name := getenv env "MODEL_NAME" in
    let anthropic_api_key := getenv env "ANTHROPIC_API_KEY" in
    if any_missing [model_name; anthropic_api_key]
    then inl ("ValueError", "model_name and anthropic_api_key must be specified")
    else build_llm env "langchain_anthropic"
           "Could not import module. Please install langchain_anthropic with `pip install langchain_anthropic`"
           (ChatAnthropic (unwrap model_name) (unwrap anthropic_api_key) "0.2")
  else if String.eqb (lower mt) "openai" then
    let model_name := getenv env "MODEL_NAME" in
    let openai_api_key := getenv env "OPENAI_API_KEY" in
    if any_missing [model_name; openai_api_key]
    then inl ("ValueError", "model_name and openai_api_key must be specified")
    else build_llm env "langchain_openai"
           "Could not import module. Please install langchain_openai with `pip install langchain_openai`"
           (ChatOpenAI (unwrap model_name) (unwrap openai_api_key))
  else if String.eqb (lower mt) "mistral" then
    let model_path := getenv env "MODEL_PATH" in
    if any_missing [model_path]
    then inl ("ValueError", "model_path must be specified")
    else build_llm env "langchain_community.llms"
           "Cannot import module. Please install ctransformers with `pip install ctransformers` and `pip install langchain`"
           (CTransformers (unwrap model_path) "llama"
              [("max_new_tokens", "512"); ("temperature", "0.8");
               ("context_length", "4000")])
  else inr None.

Definition config_hf : Embeddings :=
  {| hf_model_name := embedding_model_name;
     hf_model_kwargs := [("device", "cpu")];
     hf_encode_kwargs := [("normalize_embeddings", "False")] |}.

Definition Config (env : ConfigEnv) : py_error ConfigClass :=
  match getenv env "MODEL_TYPE" with
  | None => inl ("AttributeError", "'NoneType' object has no attribute 'lower'")
  | Some mt =>
      match config_llm env mt with
      | inl err => inl err
      | inr l =>
          match hf_error env config_hf with
          | Some err => inl err
          | None => inr {| model_type := mt; llm := l; hf := config_hf |}
          end
      end
  end.

(* ================================================================== *)
(** * Properties *)

Definition A2500 : string := repeat_str "A"%char 2500.

Definition page_doc (content : string) : Document :=
  {| page_content := content; metadata := [("source", PStr "page.txt")] |}.

Example split_small :
  split_text {| chunk_size := 5; chunk_overlap := 0; strip_whitespace := true |}
    ("ab" ++ default_separator ++ "cd" ++ default_separator ++ default_separator
     ++ "efghij")
  = ["ab"; "cd"; "efghij"].
Proof. vm_compute. reflexivity. Qed.

Example chunking_A2500 :
  map page_content (chunking_step [page_doc A2500]) = [A2500].
Proof. vm_compute. reflexivity. Qed.

(** ** The chunking step *)

Lemma length_append (s t : string) :
  String.length (s ++ t) = String.length s + String.length t.
Proof. induction s as [|c s IH]; simpl; auto. Qed.

Lemma rev_str_length (s : string) : String.length (rev_str s) = String.length s.
Proof.
  induction s as [|c s IH]; simpl; auto.
  rewrite length_append, IH; simpl; lia.
Qed.

Lemma lstrip_length (s : string) : String.length (lstrip s) <= String.length s.
Proof.
  induction s as [|c s IH]; simpl; auto.
  destruct (is_py_space c); simpl; lia.
Qed.

Lemma strip_length (s : string) : String.length (strip s) <= String.length s.
Proof.
  unfold strip, rstrip.
  rewrite rev_str_length.
  pose proof (lstrip_length (rev_str (lstrip s))).
  rewrite rev_str_length in H.
  pose proof (lstrip_length s). lia.
Qed.

Lemma str_append_assoc (a b c : string) : (a ++ b) ++ c = a ++ (b ++ c).
Proof. induction a as [|x a IH]; simpl; congruence. Qed.

Lemma join_snoc (sep : string) (cur : list string) (d : string) :
  join sep (cur ++ [d])%list
  = if nonempty cur then join sep cur ++ sep ++ d else d.
Proof.
  induction cur as [|a cur IH]; simpl; auto.
  destruct cur as [|b cur]; simpl; auto.
  simpl in IH. rewrite IH.
  rewrite !str_append_assoc. reflexivity.
Qed.

Lemma join_cons (sep a : string) (cur : list string) :
  join sep (a :: cur) = if nonempty cur then a ++ sep ++ join sep cur else a.
Proof. destruct cur; reflexivity. Qed.

Lemma len_append (s t : string) : len (s ++ t) = (len s + len t)%Z.
Proof. unfold len. rewrite length_append. lia. Qed.

Lemma len_nonempty (a : string) : a <> "" -> (len a >= 1)%Z.
Proof. destruct a; [congruence | unfold len; simpl; lia]. Qed.

Lemma len_nonneg (a : string) : (len a >= 0)%Z.
Proof. unfold len; lia. Qed.

Lemma len_default_separator : len default_separator = 2%Z.
Proof. reflexivity. Qed.

Lemma len_join_cons (a : string) (cur : list string) :
  len (join default_separator (a :: cur))
  = (len a + sep_if default_separator (nonempty cur)
     + len (join default_separator cur))%Z.
Proof.
  rewrite join_cons. unfold sep_if, separator_len.
  destruct cur as [|b cur]; cbn [nonempty].
  - unfold len at 3; simpl; lia.
  - rewrite !len_append, len_default_separator. lia.
Qed.

Lemma len_join_snoc (cur : list string) (d : string) :
  len (join default_separator (cur ++ [d])%list)
  = (len (join default_separator cur) + sep_if default_separator (nonempty cur)
     + len d)%Z.
Proof.
  rewrite join_snoc. unfold sep_if, separator_len.
  destruct cur as [|b cur]; cbn [nonempty].
  - unfold len at 2; simpl; lia.
  - rewrite !len_append, len_default_separator. lia.
Qed.

Lemma len_join_nonneg (cur : list string) : (len (join default_separator cur) >= 0)%Z.
Proof. apply len_nonneg. Qed.

(** With [chunk_overlap=0] the inner [while] empties [current_doc]. *)
Lemma pop_front_all (cur : list string) (total d_len : Z) :
  (forall p, In p cur -> p <> "") ->
  total = len (join default_separator cur) ->
  pop_front data_loader_splitter default_separator cur total d_len = ([], 0%Z).
Proof.
  revert total. induction cur as [|a cur IH]; intros total Hne Ht; simpl.
  - rewrite Ht. reflexivity.
  - rewrite len_join_cons in Ht.
    pose proof (len_nonempty a (Hne a (or_introl eq_refl))).
    pose proof (len_join_nonneg cur).
    assert (Hs : (sep_if default_separator (nonempty cur) >= 0)%Z)
      by (unfold sep_if, separator_len; destruct (nonempty cur);
          [rewrite len_default_separator|]; lia).
    replace (Z.gtb total 0) with true by (symmetry; apply Z.gtb_lt; lia).
    simpl. apply IH.
    + intros p Hp. apply Hne. right. exact Hp.
    + change (match cur with [] => false | _ :: _ => true end)
        with (nonempty cur).
      lia.
Qed.

(** A chunk is within the size limit, or is one stripped piece. *)
Definition good_chunk (pieces : list string) (c : string) : Prop :=
  (String.length c <= 1000)%nat \/ exists p, In p pieces /\ c = strip p.

Lemma join_docs_good (pieces cur : list string) (c : string) :
  (forall p, In p cur -> In p pieces) ->
  ((length cur <= 1)%nat \/ (len (join default_separator cur) <= 1000)%Z) ->
  join_docs data_loader_splitter default_separator cur = Some c ->
  good_chunk pieces c.
Proof.
  intros Hin Hsz Hj. unfold join_docs in Hj. simpl in Hj.
  destruct (String.eqb _ "") eqn:E; [discriminate|].
  injection Hj as <-.
  destruct cur as [|p [|q cur]].
  - simpl in E. discriminate.
  - right. exists p. split; [apply Hin; left; reflexivity | reflexivity].
  - destruct Hsz as [Hsz|Hsz]; [simpl in Hsz; lia|].
    left. pose proof (strip_length (join default_separator (p :: q :: cur))).
    unfold len in Hsz. lia.
Qed.

Lemma opt_cons_good (pieces cur docs : list string) :
  (forall p, In p cur -> In p pieces) ->
  ((length cur <= 1)%nat \/ (len (join default_separator cur) <= 1000)%Z) ->
  Forall (good_chunk pieces) docs ->
  Forall (good_chunk pieces)
    (opt_cons (join_docs data_loader_splitter default_separator cur) docs).
Proof.
  intros Hin Hsz Hd. unfold opt_cons.
  destruct (join_docs _ _ cur) as [c|] eqn:E; auto.
  apply Forall_app. split; auto.
  constructor; [eapply join_docs_good; eauto | constructor].
Qed.

Lemma merge_loop_good (pieces : list string) :
  forall splits docs cur total,
  (forall p, In p splits -> In p pieces /\ p <> "") ->
  (forall p, In p cur -> In p pieces /\ p <> "") ->
  total = len (join default_separator cur) ->
  ((length cur <= 1)%nat \/ (total <= 1000)%Z) ->
  Forall (good_chunk pieces) docs ->
  Forall (good_chunk pieces)
    (merge_loop data_loader_splitter default_separator splits docs cur total).
Proof.
  induction splits as [|d splits IH]; intros docs cur total Hs Hc Ht Hsz Hd.
  - simpl. apply opt_cons_good; auto.
    + intros p Hp. apply Hc. exact Hp.
    + subst total. exact Hsz.
  - cbn [merge_loop].
    assert (Hdp : In d pieces /\ d <> "") by (apply Hs; left; reflexivity).
    assert (Hs' : forall p, In p splits -> In p pieces /\ p <> "")
      by (intros p Hp; apply Hs; right; exact Hp).
    destruct (Z.gtb _ (chunk_size data_loader_splitter)) eqn:E1.
    + destruct (nonempty cur) eqn:E2.
      * rewrite pop_front_all;
          [| intros p Hp; apply Hc; exact Hp | exact Ht].
        apply IH.
        -- exact Hs'.
        -- intros p [Hp|[]]. subst p. exact Hdp.
        -- simpl. lia.
        -- left. reflexivity.
        -- apply opt_cons_good; auto.
           ++ intros p Hp. apply Hc. exact Hp.
           ++ subst total. exact Hsz.
      * destruct cur; [|discriminate].
        apply IH.
        -- exact Hs'.
        -- intros p [Hp|[]]. subst p. exact Hdp.
        -- simpl in Ht. subst total. simpl. lia.
        -- left. reflexivity.
        -- exact Hd.
    + apply IH.
      * exact Hs'.
      * intros p Hp. apply in_app_or in Hp. destruct Hp as [Hp|[Hp|[]]].
        -- apply Hc. exact Hp.
        -- subst p. exact Hdp.
      * rewrite len_join_snoc. subst total.
        replace (longer_than_one (cur ++ [d])%list) with (nonempty cur)
          by (destruct cur as [|x [|y cur]]; reflexivity).
        lia.
      * right. rewrite Z.gtb_ltb, Z.ltb_ge in E1. simpl in E1.
        replace (longer_than_one (cur ++ [d])%list) with (nonempty cur)
          by (destruct cur as [|x [|y cur]]; reflexivity).
        lia.
      * exact Hd.
Qed.

Lemma prefix_default_separator (r : string) :
  String.prefix default_separator (String nl (String nl r)) = true.
Proof.
  unfold default_separator. cbn [String.prefix].
  destruct (Ascii.ascii_dec nl nl) as [_|n]; [|congruence].
  destruct r; reflexivity.
Qed.

Lemma re_split_nn_two (c1 c2 : ascii) (r : string) :
  re_split_nn (String c1 (String c2 r))
  = if andb (Ascii.eqb c1 nl) (Ascii.eqb c2 nl)
    then EmptyString :: re_split_nn r
    else match re_split_nn (String c2 r) with
         | [] => [String c1 EmptyString]
         | x :: xs => String c1 x :: xs
         end.
Proof. reflexivity. Qed.

Lemma re_split_nn_no_separator (s : string) :
  contains default_separator s = false -> re_split_nn s = [s].
Proof.
  induction s as [|c1 rest IH]; intros H; [reflexivity|].
  destruct rest as [|c2 rest'].
  - reflexivity.
  - rewrite re_split_nn_two.
    destruct (andb (Ascii.eqb c1 nl) (Ascii.eqb c2 nl)) eqn:E.
    + apply andb_prop in E. destruct E as [E1 E2].
      apply Ascii.eqb_eq in E1, E2. subst c1 c2.
      cbn [contains] in H. rewrite prefix_default_separator in H. discriminate H.
    + assert (Hr : contains default_separator (String c2 rest') = false).
      { cbn [contains] in H. destruct (String.prefix _ _); [discriminate|exact H]. }
      rewrite (IH Hr). reflexivity.
Qed.

Lemma pieces_spec (content p : string) :
  In p (split_text_with_regex content) -> In p (split_text_with_regex content) /\ p <> "".
Proof.
  intros Hp. split; [exact Hp|].
  unfold split_text_with_regex in Hp. apply filter_In in Hp.
  destruct Hp as [_ Hp]. intros ->. discriminate Hp.
Qed.

Lemma strip_empty : strip "" = "".
Proof. reflexivity. Qed.

(** [re.split] loses nothing: joining its pieces with ["\n\n"] gives the
    text back. *)
Lemma re_split_nn_nonempty (s : string) : re_split_nn s <> [].
Proof.
  destruct s as [|c1 [|c2 r]]; try discriminate.
  rewrite re_split_nn_two.
  destruct (andb _ _); [discriminate|].
  destruct (re_split_nn (String c2 r)); discriminate.
Qed.

Lemma join_cons_char (sep : string) (c : ascii) (x : string) (xs : list string) :
  join sep (String c x :: xs) = String c (join sep (x :: xs)).
Proof. destruct xs; reflexivity. Qed.

Lemma re_split_nn_join (s : string) :
  join default_separator (re_split_nn s) = s.
Proof.
  remember (String.length s) as n eqn:Hn. revert s Hn.
  induction n as [n IH] using (well_founded_induction lt_wf).
  intros s Hn. destruct s as [|c1 [|c2 r]]; try reflexivity.
  rewrite re_split_nn_two.
  destruct (andb (Ascii.eqb c1 nl) (Ascii.eqb c2 nl)) eqn:E.
  - apply andb_prop in E. destruct E as [E1 E2].
    apply Ascii.eqb_eq in E1, E2. subst c1 c2.
    rewrite join_cons.
    destruct (re_split_nn r) as [|x xs] eqn:Er;
      [exfalso; exact (re_split_nn_nonempty r Er)|].
    cbn [nonempty]. rewrite <- Er, (IH (String.length r)); [reflexivity| |reflexivity].
    subst n. simpl. lia.
  - destruct (re_split_nn (String c2 r)) as [|x xs] eqn:Er;
      [exfalso; exact (re_split_nn_nonempty _ Er)|].
    rewrite join_cons_char, <- Er, (IH (String.length (String c2 r)));
      [reflexivity| |reflexivity].
    subst n. simpl. lia.
Qed.

(** The chunk a run of pieces gives: its ["\n\n"]-join, stripped, unless
    that is empty. *)
Definition chunk_of_group (g : list string) : list string :=
  let c := strip (join default_separator g) in
  if String.eqb c "" then [] else [c].

(** Each run but the last was closed because the first piece of the next
    run, with a separator, would have made it longer than 1000. *)
Fixpoint closed_greedily (groups : list (list string)) : Prop :=
  match groups with
  | [] => True
  | g :: rest =>
      match rest with
      | (x :: _) :: _ =>
          (len (join default_separator g) + len default_separator + len x > 1000)%Z
      | _ => True
      end /\ closed_greedily rest
  end.

Lemma opt_cons_chunk (g docs : list string) :
  opt_cons (join_docs data_loader_splitter default_separator g) docs
  = (docs ++ chunk_of_group g)%list.
Proof.
  unfold opt_cons, join_docs, chunk_of_group. cbn [strip_whitespace data_loader_splitter].
  destruct (String.eqb _ ""); [rewrite app_nil_r|]; reflexivity.
Qed.

(** The [for] loop of [_merge_splits] with [chunk_overlap=0] cuts the
    pieces still to come, after the run [cur] being built, into
    consecutive runs and emits one chunk per run. *)
Lemma merge_loop_groups :
  forall splits docs cur total,
  (forall p, In p splits -> p <> "") ->
  (forall p, In p cur -> p <> "") ->
  total = len (join default_separator cur) ->
  ((length cur <= 1)%nat \/ (total <= 1000)%Z) ->
  exists groups,
    concat groups = (cur ++ splits)%list
    /\ Forall (fun g => g <> []) groups
    /\ Forall (fun g => (length g <= 1)%nat
                        \/ (len (join default_separator g) <= 1000)%Z) groups
    /\ closed_greedily groups
    /\ (cur <> [] -> exists suf rest, groups = (cur ++ suf)%list :: rest)
    /\ merge_loop data_loader_splitter default_separator splits docs cur total
       = (docs ++ flat_map chunk_of_group groups)%list.
Proof.
  induction splits as [|d splits IH]; intros docs cur total Hs Hc Ht Hsz.
  - cbn [merge_loop]. rewrite opt_cons_chunk.
    destruct cur as [|c0 cur'].
    + exists []. cbn.
      split; [reflexivity|]. split; [constructor|]. split; [constructor|].
      split; [exact I|]. split; [|rewrite app_nil_r; reflexivity].
      intros H; exfalso; apply H; reflexivity.
    + exists [c0 :: cur']. cbn [concat flat_map].
      rewrite !app_nil_r. subst total.
      split; [reflexivity|].
      split; [constructor; [discriminate | constructor]|].
      split; [constructor; [exact Hsz | constructor]|].
      split; [split; exact I|].
      split; [|reflexivity].
      intros _. exists [], []. rewrite app_nil_r. reflexivity.
  - cbn [merge_loop].
    assert (Hd : d <> "") by (apply Hs; left; reflexivity).
    assert (Hs' : forall p, In p splits -> p <> "")
      by (intros p Hp; apply Hs; right; exact Hp).
    destruct (Z.gtb (total + len d + sep_if default_separator (nonempty cur))
                    (chunk_size data_loader_splitter)) eqn:E1.
    + destruct (nonempty cur) eqn:E2.
      * rewrite pop_front_all; [| exact Hc | exact Ht].
        match goal with
        | |- context [merge_loop _ _ splits ?dd ?cc ?tt] =>
            destruct (IH dd cc tt) as (G & HG1 & HG2 & HG3 & HG4 & HG5 & HG6)
        end.
        { exact Hs'. }
        { intros p [<-|[]]. exact Hd. }
        { cbn. lia. }
        { left. reflexivity. }
        destruct (HG5 ltac:(discriminate)) as (suf & rest & HG).
        exists (cur :: G). cbn [concat flat_map].
        rewrite HG6, opt_cons_chunk, <- app_assoc.
        split; [rewrite HG1; reflexivity|].
        split; [constructor; [destruct cur; discriminate | exact HG2]|].
        split; [constructor; [subst total; exact Hsz | exact HG3]|].
        split; [|split; [|reflexivity]].
        -- split; [|exact HG4]. rewrite HG. cbn [app].
           rewrite Z.gtb_ltb, Z.ltb_lt in E1. subst total.
           unfold sep_if, separator_len in E1. cbn [chunk_size data_loader_splitter] in E1.
           lia.
        -- intros _. exists [], G. rewrite app_nil_r. reflexivity.
      * destruct cur; [|discriminate].
        match goal with
        | |- context [merge_loop _ _ splits ?dd ?cc ?tt] =>
            destruct (IH dd cc tt) as (G & HG1 & HG2 & HG3 & HG4 & HG5 & HG6)
        end.
        { exact Hs'. }
        { intros p [<-|[]]. exact Hd. }
        { cbn in Ht |- *. subst total. lia. }
        { left. reflexivity. }
        exists G.
        split; [exact HG1|]. split; [exact HG2|]. split; [exact HG3|].
        split; [exact HG4|]. split; [|exact HG6].
        intros H; exfalso; apply H; reflexivity.
    + match goal with
      | |- context [merge_loop _ _ splits ?dd ?cc ?tt] =>
          destruct (IH dd cc tt) as (G & HG1 & HG2 & HG3 & HG4 & HG5 & HG6)
      end.
      { exact Hs'. }
      { intros p Hp. apply in_app_or in Hp. destruct Hp as [Hp|[<-|[]]].
        - apply Hc. exact Hp.
        - exact Hd. }
      { rewrite len_join_snoc. subst total.
        replace (longer_than_one (cur ++ [d])%list) with (nonempty cur)
          by (destruct cur as [|x [|y cur]]; reflexivity).
        lia. }
      { right. rewrite Z.gtb_ltb, Z.ltb_ge in E1. simpl in E1.
        replace (longer_than_one (cur ++ [d])%list) with (nonempty cur)
          by (destruct cur as [|x [|y cur]]; reflexivity).
        lia. }
      exists G.
      split; [rewrite HG1, <- app_assoc; reflexivity|].
      split; [exact HG2|]. split; [exact HG3|].
      split; [exact HG4|]. split; [|exact HG6].
      * intros Hne. destruct HG5 as (suf & rest & HG).
        { destruct cur; discriminate. }
        exists (d :: suf), rest. rewrite HG, <- app_assoc. reflexivity.
Qed.

(** Evaluating the claim's own example scenario: ["A" * 2500] yields one
    chunk. *)
Definition chunks_of (text : string) : list string :=
  map page_content (chunking_step [page_doc text]).

Definition ceil_div (n d : nat) : nat := (n + d - 1) / d.

(** C1 (counterexample): for the non-empty text ["A" * 2500] the chunking
    step of [data_loader] does not return [ceil(2500/1000) = 3] chunks of
    at most 1000 characters: it returns the whole text as one chunk. *)
Lemma chunking_step_not_fixed_size :
  ~ (forall text : string, text <> "" ->
       length (chunks_of text) = ceil_div (String.length text) 1000 /\
       Forall (fun c => (String.length c <= 1000)%nat) (chunks_of text) /\
       String.concat "" (chunks_of text) = text).
Proof.
  intros H. destruct (H A2500) as [Hl _]; [discriminate|].
  vm_compute in Hl. discriminate Hl.
Qed.

(** C1 (amended): the chunking step of [data_loader] cuts the loaded
    content at every ["\n\n"] (the pieces, joined back with ["\n\n"], give
    the content again), drops the empty pieces, and groups the others, in
    order and each exactly once, into consecutive runs: a run is closed
    only when the next piece, with a ["\n\n"] separator, would make it
    longer than 1000 characters, and a run of two or more pieces is at
    most 1000 characters long.  The chunks are, in order, the runs joined
    with ["\n\n"] and stripped of surrounding whitespace, leaving out those
    that strip to nothing.  Every chunk keeps the document's metadata and
    has at most 1000 characters unless it is a single stripped piece;
    content with no ["\n\n"] that is not all whitespace yields exactly one
    chunk, the stripped content, whatever its length. *)
Theorem chunking_step_blank_line_packing (content : string)
  (meta : list (string * pyval)) :
  let chunks := chunking_step [{| page_content := content; metadata := meta |}] in
  join default_separator (re_split_nn content) = content
  /\ split_text_with_regex content
     = filter (fun p => negb (String.eqb p "")) (re_split_nn content)
  /\ (exists groups,
        concat groups = split_text_with_regex content
        /\ Forall (fun g => g <> []) groups
        /\ Forall (fun g => (length g <= 1)%nat
                            \/ (len (join default_separator g) <= 1000)%Z) groups
        /\ closed_greedily groups
        /\ map page_content chunks = flat_map chunk_of_group groups)
  /\ (forall d, In d chunks ->
        metadata d = meta /\
        ((String.length (page_content d) <= 1000)%nat \/
         exists p, In p (split_text_with_regex content) /\ page_content d = strip p))
  /\ (contains default_separator content = false -> strip content <> "" ->
      map page_content chunks = [strip content]).
Proof.
  intros chunks. subst chunks.
  unfold chunking_step, split_documents. cbn [flat_map page_content metadata].
  rewrite app_nil_r.
  split; [apply re_split_nn_join|]. split; [reflexivity|]. split; [|split].
  - destruct (merge_loop_groups (split_text_with_regex content) [] [] 0)
      as (G & HG1 & HG2 & HG3 & HG4 & _ & HG6).
    + intros p Hp. exact (proj2 (pieces_spec content p Hp)).
    + intros p [].
    + reflexivity.
    + left. simpl. lia.
    + exists G. split; [exact HG1|]. split; [exact HG2|]. split; [exact HG3|].
      split; [exact HG4|].
      rewrite map_map. cbn [page_content]. rewrite map_id.
      exact HG6.
  - intros d Hd. apply in_map_iff in Hd. destruct Hd as [c [<- Hc]].
    split; [reflexivity|].
    assert (HF : Forall (good_chunk (split_text_with_regex content))
                   (split_text data_loader_splitter content)).
    { apply merge_loop_good.
      - apply pieces_spec.
      - intros p [].
      - reflexivity.
      - left. simpl. lia.
      - constructor. }
    rewrite Forall_forall in HF. exact (HF c Hc).
  - intros Hns Hst.
    assert (Hne : content <> "") by (intros ->; apply Hst; reflexivity).
    rewrite map_map. cbn [page_content]. rewrite map_id.
    unfold split_text, split_text_with_regex.
    rewrite (re_split_nn_no_separator content Hns).
    cbn [filter]. replace (negb (String.eqb content "")) with true
      by (symmetry; apply negb_true_iff; apply String.eqb_neq; exact Hne).
    unfold merge_splits. cbn [merge_loop].
    destruct (Z.gtb _ _); cbn [merge_loop nonempty app opt_cons];
      unfold join_docs; cbn [join strip_whitespace data_loader_splitter];
      replace (String.eqb (strip content) "") with false
        by (symmetry; apply String.eqb_neq; exact Hst);
      reflexivity.
Qed.

(** Witness: the theorem applied to ["A" * 2500]. *)
Lemma chunking_step_blank_line_packing_witness :
  map page_content (chunking_step [{| page_content := A2500; metadata := [] |}])
  = [A2500].
Proof.
  replace A2500 with (strip A2500) at 2 by (vm_compute; reflexivity).
  apply (proj2 (proj2 (proj2 (proj2 (chunking_step_blank_line_packing A2500 []))))).
  - vm_compute. reflexivity.
  - vm_compute. discriminate.
Defined.

(** ** The content fetcher *)

(** A world whose WordPress API answers [g] and whose other services
    succeed. *)
Definition world_with (g : get_outcome) : world :=
  {| wp_get := fun _ _ => g;
     files := [];
     read_fd := fun _ => None;
     chroma_err := fun _ => None;
     uuid1 := fun n => "uuid-" ++ Z_to_string (Z.of_nat n) |}.

Lemma non200_transport_differ (code : Z) (reason text u m : string) :
  non200_message code reason text <> transport_message u m.
Proof. intros H. discriminate H. Qed.

(** C3: with a response of status [code], the fetcher returns the decoded
    body when [code] is 200, and otherwise raises
    [Exception("API response: {code} {reason} - {text}")], which carries
    the status code and the body text; that error is raised exactly when
    [code] is not 200. *)
Theorem get_wordpress_api_json_status (w : world) (api_url : string)
  (api_call_timeout code : Z) (reason text : string) (json : string + pyval) :
  wp_get w api_url api_call_timeout = GotResponse code reason text json ->
  (forall v, code = 200%Z -> json = inr v ->
     get_wordpress_api_json w api_url api_call_timeout
     = ([EvHttpGet api_url api_call_timeout], Ret v))
  /\ (code <> 200%Z ->
     get_wordpress_api_json w api_url api_call_timeout
     = ([EvHttpGet api_url api_call_timeout],
        Raise (Exception (non200_message code reason text))))
  /\ (code <> 200%Z <->
      raised (snd (get_wordpress_api_json w api_url api_call_timeout))
      = Some (Exception (non200_message code reason text))).
Proof.
  intros Hw.
  assert (Hne : code <> 200%Z ->
     get_wordpress_api_json w api_url api_call_timeout
     = ([EvHttpGet api_url api_call_timeout],
        Raise (Exception (non200_message code reason text)))).
  { intros Hc. unfold get_wordpress_api_json. cbn [bind emit catch]. rewrite Hw.
    replace (Z.eqb code 200) with false by (symmetry; apply Z.eqb_neq; exact Hc).
    reflexivity. }
  split; [|split; [exact Hne|split]].
  - intros v Hc Hj. subst code json.
    unfold get_wordpress_api_json. cbn [bind emit catch]. rewrite Hw. reflexivity.
  - intros Hc. rewrite (Hne Hc). reflexivity.
  - intros Hr Hc. subst code.
    unfold get_wordpress_api_json in Hr. cbn [bind emit catch] in Hr.
    rewrite Hw in Hr. simpl in Hr.
    destruct json as [m|v]; simpl in Hr.
    + destruct (is_timeout_class "JSONDecodeError"); discriminate Hr.
    + discriminate Hr.
Qed.

Lemma get_wordpress_api_json_status_witness :
  get_wordpress_api_json (world_with (GotResponse 404 "Not Found" "no route" (inl "")))
    "http://x/api" 600
  = ([EvHttpGet "http://x/api" 600],
     Raise (Exception "API response: 404 Not Found - no route")).
Proof.
  apply (get_wordpress_api_json_status
           (world_with (GotResponse 404 "Not Found" "no route" (inl "")))
           "http://x/api" 600 404 "Not Found" "no route" (inl "")).
  - reflexivity.
  - discriminate.
Defined.

(** C9 (counterexample): the timeout failure is not a distinct kind of
    error: for a timeout, a 404 response and a refused connection the
    fetcher raises the same class, a plain [Exception]. *)
Lemma timeout_error_same_class :
  let err g := option_map exc_class
                 (raised (snd (get_wordpress_api_json (world_with g) "http://x/api" 600))) in
  err (RequestFailed "ReadTimeout" "read timed out") = Some "Exception"
  /\ err (GotResponse 404 "Not Found" "no route" (inl "")) = Some "Exception"
  /\ err (RequestFailed "ConnectionError" "refused") = Some "Exception".
Proof. vm_compute. repeat split. Qed.

(** Whatever the API or the transport does, an error that leaves the
    fetcher is a plain [Exception]. *)
Lemma get_wordpress_api_json_raises_Exception (w : world) (api_url : string)
  (t : Z) (e : py_exc) :
  raised (snd (get_wordpress_api_json w api_url t)) = Some e -> exc_class e = "Exception".
Proof.
  unfold get_wordpress_api_json. cbn [bind emit catch].
  destruct (wp_get w api_url t) as [code reason text [m|v]|cls m].
  - destruct (Z.eqb code 200); cbn;
      [destruct (is_timeout_class "JSONDecodeError"); cbn|];
      intros H; injection H as <-; reflexivity.
  - destruct (Z.eqb code 200); cbn; [discriminate|].
    intros H; injection H as <-; reflexivity.
  - cbn. destruct (_ || _); cbn; intros H; injection H as <-; reflexivity.
Qed.

(** C9 (amended): when [session.get] raises a [Timeout] (or a subclass),
    the fetcher raises a plain [Exception] whose message is
    ["API call request timed out after {api_call_timeout} seconds!"].  A
    non-200 answer raises [Exception("API response: ...")] and any other
    transport failure [Exception("Error during API call to ...")]: every
    failure of the fetcher, whatever the API does, has the class
    [Exception].  The three messages differ from each other, so the three
    failures are told apart by their text only. *)
Theorem get_wordpress_api_json_timeout (w : world) (api_url : string)
  (api_call_timeout : Z) (cls m : string) :
  is_timeout_class cls = true ->
  wp_get w api_url api_call_timeout = RequestFailed cls m ->
  get_wordpress_api_json w api_url api_call_timeout
  = ([EvHttpGet api_url api_call_timeout],
     Raise (Exception ("API call request timed out after "
                       ++ Z_to_string api_call_timeout ++ " seconds!")))
  /\ (forall w' e, raised (snd (get_wordpress_api_json w' api_url api_call_timeout))
                   = Some e -> exc_class e = "Exception")
  /\ (forall w' code reason text json,
        wp_get w' api_url api_call_timeout = GotResponse code reason text json ->
        code <> 200%Z ->
        raised (snd (get_wordpress_api_json w' api_url api_call_timeout))
        = Some (Exception (non200_message code reason text)))
  /\ (forall w' cls' m',
        wp_get w' api_url api_call_timeout = RequestFailed cls' m' ->
        is_timeout_class cls' = false ->
        raised (snd (get_wordpress_api_json w' api_url api_call_timeout))
        = Some (Exception (transport_message api_url m')))
  /\ (forall code reason text,
        non200_message code reason text <> timeout_message api_call_timeout)
  /\ (forall u msg, transport_message u msg <> timeout_message api_call_timeout)
  /\ (forall code reason text u msg,
        non200_message code reason text <> transport_message u msg).
Proof.
  intros Hc Hw. split; [|split; [|split; [|split; [|split; [|split]]]]].
  - unfold get_wordpress_api_json. cbn [bind emit catch]. rewrite Hw.
    simpl. rewrite Hc. reflexivity.
  - intros w' e. apply get_wordpress_api_json_raises_Exception.
  - intros w' code reason text json Hw' Hne.
    unfold get_wordpress_api_json. cbn [bind emit catch]. rewrite Hw'.
    replace (Z.eqb code 200) with false by (symmetry; apply Z.eqb_neq; exact Hne).
    reflexivity.
  - intros w' cls' m' Hw' Hc'.
    unfold get_wordpress_api_json. cbn [bind emit catch]. rewrite Hw'.
    unfold is_timeout_class in Hc'. cbn in Hc' |- *. rewrite Hc'. reflexivity.
  - intros code reason text H. discriminate H.
  - intros u msg H. discriminate H.
  - intros code reason text u msg H. discriminate H.
Qed.

Lemma get_wordpress_api_json_timeout_witness :
  get_wordpress_api_json (world_with (RequestFailed "ReadTimeout" "read timed out"))
    "http://x/api" 600
  = ([EvHttpGet "http://x/api" 600],
     Raise (Exception "API call request timed out after 600 seconds!")).
Proof.
  apply (get_wordpress_api_json_timeout
           (world_with (RequestFailed "ReadTimeout" "read timed out"))
           "http://x/api" 600 "ReadTimeout" "read timed out");
    reflexivity.
Defined.

(** ** Basic authentication *)

Definition wrong_password_credentials : HTTPBasicCredentials :=
  {| username := "admin"; password := "letmein" |}.

(** C8 (counterexample): with the right username and a wrong password the
    middleware answers 401, but its detail ["Incorrect email or password"]
    contains the text ["password"], which is the correct password. *)
Lemma auth_detail_contains_correct_password :
  ~ (forall c : HTTPBasicCredentials,
       (username c, password c) <> (correct_username, correct_password) ->
       exists d, basic_auth_middleware c = Raise (HTTPException 401 d)
                 /\ contains correct_username d = false
                 /\ contains correct_password d = false).
Proof.
  intros H.
  destruct (H wrong_password_credentials) as [d [Hb [_ Hp]]].
  - vm_compute. discriminate.
  - vm_compute in Hb. injection Hb as <-. vm_compute in Hp. discriminate Hp.
Qed.

(** C8 (amended): the middleware accepts exactly the pair
    ("admin", "password"); every other pair fails with a 401 whose detail
    is the constant ["Incorrect email or password"], independent of the
    supplied credentials.  That constant does not contain the correct
    username, but it does contain the text ["password"], which is the
    correct password. *)
Theorem basic_auth_constant_detail (c : HTTPBasicCredentials) :
  (basic_auth_middleware c = Ret true
   <-> username c = correct_username /\ password c = correct_password)
  /\ ((username c, password c) <> (correct_username, correct_password) ->
      basic_auth_middleware c
      = Raise (HTTPException 401 "Incorrect email or password"))
  /\ contains correct_username auth_failure_detail = false
  /\ contains correct_password auth_failure_detail = true.
Proof.
  unfold basic_auth_middleware.
  split; [|split; [|split]].
  - destruct (String.eqb (username c) correct_username) eqn:Eu;
    destruct (String.eqb (password c) correct_password) eqn:Ep; simpl;
    apply String.eqb_eq in Eu || apply String.eqb_neq in Eu;
    apply String.eqb_eq in Ep || apply String.eqb_neq in Ep;
    split; intros H; try discriminate H; try tauto.
  - intros Hne.
    destruct (String.eqb (username c) correct_username) eqn:Eu;
    destruct (String.eqb (password c) correct_password) eqn:Ep; simpl;
    try reflexivity.
    apply String.eqb_eq in Eu, Ep. rewrite Eu, Ep in Hne. congruence.
  - vm_compute. reflexivity.
  - vm_compute. reflexivity.
Qed.

Lemma basic_auth_constant_detail_witness :
  basic_auth_middleware wrong_password_credentials
  = Raise (HTTPException 401 "Incorrect email or password").
Proof.
  apply (proj1 (proj2 (basic_auth_constant_detail wrong_password_credentials))).
  vm_compute. discriminate.
Defined.

(** ** Session memory *)

Definition is_key_error {A} (o : outcome A) : bool :=
  match o with Raise (KeyError _) => true | _ => false end.

Lemma catch_to_add_error (m : M unit) :
  snd (catch m (fun _ => throw (Exception add_error))) = Ret tt
  \/ snd (catch m (fun _ => throw (Exception add_error))) = Raise (Exception add_error).
Proof.
  destruct m as [t [[]|e]]; simpl; auto.
Qed.

(** C5: when [messages] lacks ['user'] or ['ai_assistant'],
    [add_messages_to_redis] raises [KeyError] having made no Redis call
    (not even building the client); it raises [KeyError] exactly when one
    of the two keys is missing. *)
Theorem add_messages_missing_key_first (self : ManageMemory) (session_id : string)
  (messages : list (string * string)) (redis_err : event -> option string) :
  (andb (has_key "user" messages) (has_key "ai_assistant" messages) = false ->
   add_messages_to_redis self session_id messages redis_err
   = ([], Raise (KeyError missing_keys_message)))
  /\ is_key_error (snd (add_messages_to_redis self session_id messages redis_err))
     = negb (andb (has_key "user" messages) (has_key "ai_assistant" messages)).
Proof.
  unfold add_messages_to_redis.
  destruct (has_key "user" messages), (has_key "ai_assistant" messages);
    simpl; split; try reflexivity; try discriminate.
  match goal with
  | |- is_key_error (snd (catch ?m _)) = false =>
      destruct (catch_to_add_error m) as [-> | ->]; reflexivity
  end.
Qed.

Definition no_memory_errors : event -> option string := fun _ => None.

Lemma add_messages_missing_key_first_witness :
  add_messages_to_redis ManageMemory_default "s1" [("user", "hi")] no_memory_errors
  = ([], Raise (KeyError missing_keys_message)).
Proof.
  apply (proj1 (add_messages_missing_key_first ManageMemory_default "s1"
                  [("user", "hi")] no_memory_errors)).
  reflexivity.
Defined.

Definition redis_memory : ManageMemory :=
  {| redis_url := "redis://localhost:6379/0"; redis_timeout := 600 |}.

(** C4 (code bug): [get_message_from_redis] never returns a window:
    [json.dumps(message_history)] raises [TypeError] on the
    [RedisChatMessageHistory] object (and a non-Redis URL fails earlier),
    so every call, for every session, raises
    [Exception("Error retrieving messages from Redis")]. *)
Theorem get_message_from_redis_always_raises (client_err : option string)
  (self : ManageMemory) (session_id : string) :
  get_message_from_redis client_err self session_id = Raise (Exception retrieve_error).
Proof.
  unfold get_message_from_redis, RedisChatMessageHistory.
  destruct client_err, (redis_sentinel_url (redis_url self)),
           (redis_scheme_ok (redis_url self)); reflexivity.
Qed.

Example get_message_from_redis_fresh_session :
  get_message_from_redis None redis_memory "s1"
  = Raise (Exception "Error retrieving messages from Redis").
Proof. reflexivity. Qed.

(** ** The upload operation *)

Definition admin_credentials : HTTPBasicCredentials :=
  {| username := "admin"; password := "password" |}.

(** [upload("http://x/api", true, null)] *)
Definition spec_request : UploadRequest :=
  {| url := "http://x/api"; create_collection := true; collection_name := None |}.

(** The API answers 404. *)
Definition world_404 : world :=
  world_with (GotResponse 404 "Not Found" "rest_no_route" (inl "Expecting value")).

(** The API answers 200 with [{"content": "A" * 2500}]; every other
    service succeeds. *)
Definition world_content : world :=
  world_with (GotResponse 200 "OK" "" (inr (PDict [("content", PStr A2500)]))).

(** [app.py] with [import requests] added. *)
Definition globals_with_requests : list string := "requests" :: app_globals.

Lemma upload_handlers_500 (g : list string) (m : M UploadResponse) :
  (exists r, snd (catch m (upload_handlers g)) = Ret r)
  \/ (exists e, snd (catch m (upload_handlers g)) = Raise e
                /\ http_status (to_http (Raise e)) = 500%Z).
Proof.
  destruct m as [t [r|e0]]; simpl.
  - left. exists r. reflexivity.
  - right. unfold upload_handlers, name_lookup.
    destruct (existsb (String.eqb "requests") g); simpl.
    + destruct (is_request_exception e0); simpl; eexists; split; reflexivity.
    + eexists; split; reflexivity.
Qed.

(** C10: whatever reaches the body of [upload_data] has
    [verification = True], since [basic_auth_middleware] either returns
    [True] or raises its own 401; and every exception escaping the body,
    for any verification value and whether or not [requests] is imported,
    becomes a 500 response, so the body's own 401 ["User not authorized."]
    never reaches the client. *)
Theorem upload_body_verified_and_500 (g : list string) (w : world)
  (credentials : HTTPBasicCredentials) (request : UploadRequest) :
  (forall v, basic_auth_middleware credentials = Ret v -> v = true)
  /\ (forall v e, snd (upload_data_in g w request v) = Raise e ->
        http_status (to_http (Raise e)) = 500%Z)
  /\ (forall v, http_status (to_http (snd (upload_data_in g w request v))) <> 401%Z).
Proof.
  split; [|split].
  - unfold basic_auth_middleware. intros v.
    destruct (andb _ _); intros H; [injection H as <-; reflexivity | discriminate H].
  - intros v e He. unfold upload_data_in in He.
    match type of He with
    | snd (catch ?m _) = _ =>
        destruct (upload_handlers_500 g m) as [[r Hr]|[e' [He' Hs]]]
    end.
    + rewrite Hr in He. discriminate He.
    + rewrite He' in He. injection He as <-. exact Hs.
  - intros v. unfold upload_data_in.
    match goal with
    | |- context [snd (catch ?m _)] =>
        destruct (upload_handlers_500 g m) as [[r Hr]|[e' [He' Hs]]]
    end.
    + rewrite Hr. discriminate.
    + rewrite He'. rewrite Hs. discriminate.
Qed.

Lemma upload_body_verified_and_500_witness :
  basic_auth_middleware admin_credentials = Ret true
  /\ http_status (to_http (snd (upload_data_in app_globals world_404 spec_request false)))
     = 500%Z.
Proof.
  split; [reflexivity|].
  apply (proj1 (proj2 (upload_body_verified_and_500 app_globals world_404
                          admin_credentials spec_request)) false).
  reflexivity.
Defined.

(** C6: [create_collection] is never read: two requests that differ only
    in it give the same Chroma calls and the same response, in [app.py]
    as written and in any other module namespace. *)
Theorem upload_ignores_create_collection (g : list string) (w : world)
  (credentials : HTTPBasicCredentials) (u : string) (cn : option string)
  (cc1 cc2 : bool) :
  post_upload_in g w credentials
    {| url := u; create_collection := cc1; collection_name := cn |}
  = post_upload_in g w credentials
    {| url := u; create_collection := cc2; collection_name := cn |}.
Proof. reflexivity. Qed.

(** [app.py] never imports [requests]: whatever the services answer,
    [upload_data] fails with [NameError] before calling any of them. *)
Lemma upload_data_name_error (w : world) (request : UploadRequest) (v : bool) :
  upload_data w request v = ([], Raise (NameError "requests")).
Proof. destruct v; reflexivity. Qed.

(** C2 (code bug): with a 404 from the API, [POST /upload] answers a bare
    500 without a fetch-failure detail: the handler dies on
    [requests.Session()] with [NameError] (again in its [except] clause).
    The fetch is never sent and Chroma is never called. *)
Theorem upload_404_name_error :
  post_upload world_404 admin_credentials spec_request
  = ([], {| http_status := 500; http_body_of := ServerErrorBody |})
  /\ snd (upload_data world_404 spec_request true) = Raise (NameError "requests").
Proof. vm_compute. split; reflexivity. Qed.

(** C7 (code bug): with [collection_name = None] and every service
    succeeding, [POST /upload] inserts nothing and answers a bare 500,
    not the success response. *)
Theorem upload_default_collection_name_error :
  post_upload world_content admin_credentials spec_request
  = ([], {| http_status := 500; http_body_of := ServerErrorBody |}).
Proof. vm_compute. reflexivity. Qed.

(** With [import requests] added, the 404 case answers 500 with the
    fetcher's message and still makes no Chroma call. *)
Example upload_404_with_requests_import :
  post_upload_in globals_with_requests world_404 admin_credentials spec_request
  = ([EvHttpGet "http://x/api" 600],
     {| http_status := 500;
        http_body_of := DetailBody
          "An unexpected error occurred: API response: 404 Not Found - rest_no_route" |}).
Proof. vm_compute. reflexivity. Qed.

(** With [import requests] added, the success scenario still fails:
    [data_loader] hands the decoded JSON dict to [TextLoader] as a file
    path, and no Chroma call is made. *)
Example upload_content_with_requests_import :
  exists d,
  post_upload_in globals_with_requests world_content admin_credentials spec_request
  = ([EvHttpGet "http://x/api" 600],
     {| http_status := 500; http_body_of := DetailBody d |}).
Proof. eexists. vm_compute. reflexivity. Qed.

(** [data_loader] on a path to a file holding two paragraphs: reset,
    get-or-create, then one [add] per chunk. *)
Example data_loader_two_paragraphs :
  data_loader
    {| wp_get := fun _ _ => RequestFailed "ConnectionError" "";
       files := [("page.txt", "ab" ++ default_separator ++ repeat_str "c"%char 999)];
       read_fd := fun _ => None; chroma_err := fun _ => None;
       uuid1 := fun n => Z_to_string (Z.of_nat n) |}
    (PStr "page.txt") "docs"
  = ([EvChromaClient; EvChromaReset; EvGetOrCreate "docs";
      EvAdd "docs" "0" [("source", PStr "page.txt")] "ab";
      EvAdd "docs" "1" [("source", PStr "page.txt")] (repeat_str "c"%char 999)],
     Ret tt).
Proof. vm_compute. reflexivity. Qed.

(** The default collection name is used when none is given. *)
Example effective_collection_name_default :
  effective_collection_name spec_request = "Default_Collection".
Proof. reflexivity. Qed.

(* ------------------------------------------------------------------ *)
(** ** More of [data_loader] *)

(** The Chroma calls [data_loader] makes for chunk list [docs] when none
    fails. *)
Fixpoint add_events (w : world) (cn : string) (docs : list Document) (n : nat)
  : list event :=
  match docs with
  | [] => []
  | doc :: docs' => EvAdd cn (uuid1 w n) (metadata doc) (page_content doc)
                    :: add_events w cn docs' (S n)
  end.

Definition data_loader_calls (w : world) (cn : string) (docs : list Document)
  : list event :=
  [EvChromaClient; EvChromaReset; EvGetOrCreate cn] ++ add_events w cn docs 0.

(** A sequence of Chroma calls, stopping at the first that fails. *)
Fixpoint run_calls (w : world) (calls : list event) : M unit :=
  match calls with
  | [] => ret tt
  | ev :: calls' => _ <- chroma_call w ev ;; run_calls w calls'
  end.

Lemma add_all_run_calls (w : world) (cn : string) (docs : list Document) (n : nat) :
  add_all w cn docs n = run_calls w (add_events w cn docs n).
Proof.
  revert n. induction docs as [|d docs IH]; intros n; simpl; [reflexivity|].
  rewrite IH. reflexivity.
Qed.

Lemma bind_lift_ret {A B} (a : A) (k : A -> M B) : bind (lift (Ret a)) k = k a.
Proof. unfold bind, lift. destruct (k a); reflexivity. Qed.

Lemma catch_rethrow {A} (m : M A) : catch m (fun e => throw e) = m.
Proof. destruct m as [t [a|e]]; simpl; [reflexivity|]. rewrite app_nil_r. reflexivity. Qed.

Lemma run_calls_all_ok (w : world) (calls : list event) :
  (forall ev, In ev calls -> chroma_err w ev = None) ->
  run_calls w calls = (calls, Ret tt).
Proof.
  induction calls as [|ev calls IH]; intros H; [reflexivity|].
  cbn [run_calls]. unfold chroma_call, bind at 2, emit.
  rewrite (H ev (or_introl eq_refl)). cbn [bind ret].
  rewrite IH by (intros e He; apply H; right; exact He). reflexivity.
Qed.

Lemma run_calls_first_failure (w : world) (pre post : list event) (ev : event)
  (m : string) :
  (forall e, In e pre -> chroma_err w e = None) ->
  chroma_err w ev = Some m ->
  run_calls w (pre ++ ev :: post) = ((pre ++ [ev])%list, Raise (ChromaError m)).
Proof.
  induction pre as [|e pre IH]; intros Hpre Hev.
  - cbn [app run_calls]. unfold chroma_call, bind at 2, emit.
    rewrite Hev. reflexivity.
  - cbn [app run_calls]. unfold chroma_call, bind at 2, emit.
    rewrite (Hpre e (or_introl eq_refl)). cbn [bind ret].
    rewrite IH by (auto; intros e' He'; apply Hpre; right; exact He').
    reflexivity.
Qed.

Lemma run_calls_cons_trace (w : world) (ev : event) (calls : list event) :
  exists t, fst (run_calls w (ev :: calls)) = ev :: t.
Proof.
  cbn [run_calls]. unfold chroma_call, emit, bind.
  destruct (chroma_err w ev); simpl.
  - eexists. reflexivity.
  - destruct (run_calls w calls). simpl. eexists. reflexivity.
Qed.

Lemma data_loader_loaded (w : world) (text : pyval) (cn : string)
  (documents : list Document) :
  truthy text = true -> cn <> "" -> text_loader_load w text = Ret documents ->
  data_loader w text cn
  = run_calls w (data_loader_calls w cn (chunking_step documents)).
Proof.
  intros Ht Hc Hl. unfold data_loader.
  rewrite Ht. replace (truthy (PStr cn)) with true
    by (simpl; symmetry; apply negb_true_iff, String.eqb_neq; exact Hc).
  cbn [negb orb]. rewrite catch_rethrow. rewrite Hl, bind_lift_ret.
  rewrite add_all_run_calls. reflexivity.
Qed.

Definition empty_input_message : string :=
  "Text and collection name must be provided and cannot be empty.".

Lemma text_loader_load_error (w : world) (text : pyval) (e : py_exc) :
  text_loader_load w text = Raise e -> e = RuntimeError ("Error loading " ++ py_str text).
Proof.
  unfold text_loader_load. intros H.
  destruct text;
    repeat match type of H with
    | context [match ?x with Some _ => _ | None => _ end] => destruct x
    end; congruence.
Qed.

(** [data_loader] raises [ValueError] exactly when the text is falsy
    (None, empty string, empty dict or list, 0, False) or the collection
    name is empty, and then calls Chroma not at all. *)
Theorem data_loader_empty_input (w : world) (text : pyval) (collection_name : string) :
  orb (negb (truthy text)) (String.eqb collection_name "") = true
  <-> data_loader w text collection_name = ([], Raise (ValueError empty_input_message)).
Proof.
  split.
  - intros H. unfold data_loader.
    replace (negb (truthy (PStr collection_name))) with (String.eqb collection_name "")
      by (simpl; symmetry; apply negb_involutive).
    rewrite H. reflexivity.
  - intros H. destruct (orb _ _) eqn:E; [reflexivity|].
    apply orb_false_iff in E. destruct E as [Et Ec].
    apply negb_false_iff in Et. apply String.eqb_neq in Ec.
    destruct (text_loader_load w text) as [documents|e] eqn:Hl.
    + rewrite (data_loader_loaded w text collection_name documents Et Ec Hl) in H.
      unfold data_loader_calls in H. cbn [app] in H.
      match type of H with
      | run_calls w (?ev :: ?calls) = _ =>
          destruct (run_calls_cons_trace w ev calls) as [t Ht]
      end.
      rewrite H in Ht. discriminate Ht.
    + pose proof (text_loader_load_error w text e Hl) as He. subst e.
      unfold data_loader in H.
      replace (negb (truthy (PStr collection_name))) with false in H
        by (simpl; symmetry; apply negb_false_iff, negb_true_iff,
                   String.eqb_neq; exact Ec).
      rewrite Et in H. cbn [negb orb] in H. rewrite catch_rethrow in H.
      unfold lift in H. rewrite Hl in H. discriminate H.
Qed.

(** When [TextLoader] cannot load the text, [data_loader] raises
    [RuntimeError("Error loading {text}")] before any Chroma call, so the
    store is not reset.  A JSON object (such as the decoded WordPress body
    [upload_data] passes) is never loadable. *)
Theorem data_loader_load_failure (w : world) (text : pyval)
  (collection_name : string) (e : py_exc) :
  truthy text = true -> collection_name <> "" -> text_loader_load w text = Raise e ->
  data_loader w text collection_name
  = ([], Raise (RuntimeError ("Error loading " ++ py_str text)))
  /\ (forall kvs, text_loader_load w (PDict kvs)
                  = Raise (RuntimeError ("Error loading " ++ py_str (PDict kvs)))).
Proof.
  intros Ht Hc Hl. split; [|reflexivity].
  pose proof (text_loader_load_error w text e Hl) as He. subst e.
  unfold data_loader.
  replace (negb (truthy (PStr collection_name))) with false
    by (simpl; symmetry; apply negb_false_iff, negb_true_iff,
               String.eqb_neq; exact Hc).
  rewrite Ht. cbn [negb orb]. rewrite catch_rethrow.
  unfold lift. rewrite Hl. reflexivity.
Qed.

Lemma data_loader_load_failure_witness :
  data_loader world_content (PDict [("content", PStr "hello")]) "Default_Collection"
  = ([], Raise (RuntimeError ("Error loading " ++ py_str (PDict [("content", PStr "hello")])))).
Proof.
  refine (proj1 (data_loader_load_failure world_content
                  (PDict [("content", PStr "hello")]) "Default_Collection"
                  (RuntimeError ("Error loading " ++ py_str (PDict [("content", PStr "hello")])))
                  _ _ _));
    [reflexivity | discriminate | reflexivity].
Defined.

(** Once the text is loaded, [data_loader] makes exactly these Chroma
    calls in order: build the client, [reset()] the whole store,
    [get_or_create_collection(name)], then one [add] per chunk with ids
    [uuid1()] drawn in chunk order.  It stops at the first call that
    fails and re-raises its error unchanged, keeping the calls already
    made (no rollback of the reset or of earlier adds). *)
Theorem data_loader_call_sequence (w : world) (text : pyval)
  (collection_name : string) (documents : list Document) :
  truthy text = true -> collection_name <> "" ->
  text_loader_load w text = Ret documents ->
  let calls := data_loader_calls w collection_name (chunking_step documents) in
  ((forall ev, In ev calls -> chroma_err w ev = None) ->
   data_loader w text collection_name = (calls, Ret tt))
  /\ (forall pre ev post m,
        calls = (pre ++ ev :: post)%list ->
        (forall e, In e pre -> chroma_err w e = None) ->
        chroma_err w ev = Some m ->
        data_loader w text collection_name
        = ((pre ++ [ev])%list, Raise (ChromaError m))).
Proof.
  intros Ht Hc Hl calls.
  rewrite (data_loader_loaded w text collection_name documents Ht Hc Hl).
  split.
  - apply run_calls_all_ok.
  - intros pre ev post m Hcalls Hpre Hev. unfold calls in Hcalls.
    rewrite Hcalls. apply run_calls_first_failure; assumption.
Qed.

(** A Chroma world whose [reset()] fails. *)
Definition world_reset_fails : world :=
  {| wp_get := fun _ _ => RequestFailed "ConnectionError" "";
     files := [("page.txt", "hello")];
     read_fd := fun _ => None;
     chroma_err := fun ev => match ev with
                             | EvChromaReset => Some "reset is disabled"
                             | _ => None
                             end;
     uuid1 := fun n => Z_to_string (Z.of_nat n) |}.

Lemma data_loader_call_sequence_witness :
  data_loader world_reset_fails (PStr "page.txt") "docs"
  = ([EvChromaClient; EvChromaReset], Raise (ChromaError "reset is disabled")).
Proof.
  apply (proj2 (data_loader_call_sequence world_reset_fails (PStr "page.txt") "docs"
                  [page_doc "hello"] eq_refl ltac:(discriminate) eq_refl)
           [EvChromaClient] EvChromaReset
           (EvGetOrCreate "docs" :: add_events world_reset_fails "docs"
              (chunking_step [page_doc "hello"]) 0)).
  - reflexivity.
  - intros e [<-|[]]. reflexivity.
  - reflexivity.
Defined.

(** [create_vector_db_from_chroma] raises [ValueError] on an empty
    collection name without calling Chroma; otherwise it builds the client
    and asks for [get_or_create_collection(name)], and it never resets the
    store, whatever Chroma answers. *)
Theorem create_vector_db_never_resets (w : world) (collection_name emb : string) :
  (collection_name = "" ->
   create_vector_db_from_chroma w collection_name emb
   = ([], Raise (ValueError "Collection name must be provided and cannot be empty.")))
  /\ (collection_name <> "" ->
      chroma_err w EvChromaClient = None ->
      chroma_err w (EvGetOrCreate collection_name) = None ->
      create_vector_db_from_chroma w collection_name emb
      = ([EvChromaClient; EvGetOrCreate collection_name],
         Ret {| vdb_collection := collection_name; vdb_embedding := emb |}))
  /\ ~ In EvChromaReset (fst (create_vector_db_from_chroma w collection_name emb)).
Proof.
  unfold create_vector_db_from_chroma. cbn [truthy].
  split; [|split].
  - intros ->. reflexivity.
  - intros Hc H1 H2.
    replace (negb (negb (String.eqb collection_name ""))) with false
      by (rewrite negb_involutive; symmetry; apply String.eqb_neq; exact Hc).
    rewrite catch_rethrow. unfold chroma_call, emit, bind. rewrite H1, H2.
    reflexivity.
  - destruct (negb (negb _)); [simpl; tauto|].
    rewrite catch_rethrow. unfold chroma_call, emit, bind.
    destruct (chroma_err w EvChromaClient); simpl;
      [intros [H|[]]; discriminate H|].
    destruct (chroma_err w (EvGetOrCreate collection_name)); simpl;
      intros [H|[H|[]]]; discriminate H.
Qed.

Lemma create_vector_db_never_resets_witness :
  create_vector_db_from_chroma world_content "docs" embedding_model_name
  = ([EvChromaClient; EvGetOrCreate "docs"],
     Ret {| vdb_collection := "docs"; vdb_embedding := embedding_model_name |}).
Proof.
  apply (proj1 (proj2 (create_vector_db_never_resets world_content "docs"
                          embedding_model_name)));
    [discriminate | reflexivity | reflexivity].
Defined.

(** ** More of [get_wordpress_api_json] *)

(** Every call sends exactly one GET with the given timeout; it returns
    the decoded JSON exactly when the API answers 200 with a JSON body,
    and whatever goes wrong it raises a plain [Exception], never a
    [requests] exception. *)
Theorem get_wordpress_api_json_shape (w : world) (api_url : string) (t : Z) :
  fst (get_wordpress_api_json w api_url t) = [EvHttpGet api_url t]
  /\ (forall v, snd (get_wordpress_api_json w api_url t) = Ret v
        <-> exists reason text, wp_get w api_url t = GotResponse 200 reason text (inr v))
  /\ (forall e, snd (get_wordpress_api_json w api_url t) = Raise e
        -> exists msg, e = Exception msg).
Proof.
  unfold get_wordpress_api_json.
  destruct (wp_get w api_url t) as [code reason text [m|v]|cls m] eqn:Hg.
  - destruct (Z.eqb code 200) eqn:E; cbn;
      [destruct (is_timeout_class "JSONDecodeError"); cbn|];
      (split; [reflexivity|split]);
      try (intros e He; injection He as <-; eexists; reflexivity);
      intros v; split; try discriminate;
      intros (r & x & H); discriminate H.
  - destruct (Z.eqb code 200) eqn:E; cbn; (split; [reflexivity|split]).
    + intros v'. split.
      * intros H; injection H as <-. apply Z.eqb_eq in E; subst code.
        exists reason, text. reflexivity.
      * intros (r & x & H). injection H as _ _ _ <-. reflexivity.
    + intros e He; discriminate He.
    + intros v'; split; [discriminate|].
      intros (r & x & H). injection H as Hc _ _ _. subst code. discriminate E.
    + intros e He; injection He as <-; eexists; reflexivity.
  - destruct (is_timeout_class cls) eqn:Ht; unfold is_timeout_class in Ht;
      cbn in Ht |- *; rewrite Ht; cbn; (split; [reflexivity|split]);
      try (intros e He; injection He as <-; eexists; reflexivity);
      intros v; split; try discriminate;
      intros (r & x & H); discriminate H.
Qed.

(** A 200 whose body is not JSON, and a transport failure that is not a
    timeout, both end in the same message
    ["Error during API call to {api_url}: {e}"]. *)
Theorem get_wordpress_api_json_transport_error (w : world) (api_url : string)
  (t : Z) (m : string) :
  ((exists reason text, wp_get w api_url t = GotResponse 200 reason text (inl m))
   \/ (exists cls, wp_get w api_url t = RequestFailed cls m
                   /\ is_timeout_class cls = false)) ->
  get_wordpress_api_json w api_url t
  = ([EvHttpGet api_url t], Raise (Exception (transport_message api_url m))).
Proof.
  unfold get_wordpress_api_json.
  intros [(r & x & H) | (cls & H & Hc)]; rewrite H; [reflexivity|].
  unfold is_timeout_class in Hc. cbn in Hc |- *. rewrite Hc. reflexivity.
Qed.

(** A WordPress site that answers 200 with an HTML page. *)
Definition world_html : world :=
  {| wp_get := fun _ _ => GotResponse 200 "OK" "<html>"
                 (inl "Expecting value: line 1 column 1 (char 0)");
     files := [];
     read_fd := fun _ => None;
     chroma_err := fun _ => None;
     uuid1 := fun n => Z_to_string (Z.of_nat n) |}.

Lemma get_wordpress_api_json_transport_error_witness :
  get_wordpress_api_json world_html "https://example.com/wp-json" 600
  = ([EvHttpGet "https://example.com/wp-json" 600],
     Raise (Exception (transport_message "https://example.com/wp-json"
                         "Expecting value: line 1 column 1 (char 0)"))).
Proof.
  apply (get_wordpress_api_json_transport_error world_html
           "https://example.com/wp-json" 600
           "Expecting value: line 1 column 1 (char 0)").
  left. exists "OK", "<html>". reflexivity.
Defined.

(** ** More of [add_messages_to_redis] *)

(** With both keys present: an URL that [get_client] rejects (neither a
    Sentinel URL nor one of the schemes [redis.from_url] knows) fails
    after the client call, before any write, and so does a client that
    cannot be built.  Otherwise the user message is written before the
    assistant's, the method stops at the first failing write (keeping the
    user message if only the second write fails), and every failure is
    reported as the same [Exception(add_error)]. *)
Theorem add_messages_to_redis_writes (self : ManageMemory) (session_id : string)
  (messages : list (string * string)) (redis_err : event -> option string) :
  has_key "user" messages = true -> has_key "ai_assistant" messages = true ->
  let client := EvRedisClient (redis_url self) session_id in
  let human := EvRedisAdd session_id "human" (dict_get "user" messages) in
  let ai := EvRedisAdd session_id "ai" (dict_get "ai_assistant" messages) in
  let accepted := orb (redis_sentinel_url (redis_url self))
                      (redis_scheme_ok (redis_url self)) in
  (accepted = false ->
   add_messages_to_redis self session_id messages redis_err
   = ([client], Raise (Exception add_error)))
  /\ (accepted = true ->
      (forall m, redis_err client = Some m ->
       add_messages_to_redis self session_id messages redis_err
       = ([client], Raise (Exception add_error)))
      /\ (redis_err client = None ->
          (redis_err human = None -> redis_err ai = None ->
           add_messages_to_redis self session_id messages redis_err
           = ([client; human; ai], Ret tt))
          /\ (forall m, redis_err human = Some m ->
              add_messages_to_redis self session_id messages redis_err
              = ([client; human], Raise (Exception add_error)))
          /\ (forall m, redis_err human = None -> redis_err ai = Some m ->
              add_messages_to_redis self session_id messages redis_err
              = ([client; human; ai], Raise (Exception add_error))))).
Proof.
  intros Hu Ha client human ai accepted. subst client human ai accepted.
  unfold add_messages_to_redis. rewrite Hu, Ha. cbn [negb orb].
  unfold RedisChatMessageHistory.
  destruct (redis_sentinel_url (redis_url self)),
           (redis_scheme_ok (redis_url self)); cbn [orb];
    (split; [intros Hs; try discriminate Hs; reflexivity|]);
    intros Hs; try discriminate Hs;
    (split; [intros m0 Hc; rewrite Hc; reflexivity|]);
    intros Hc; rewrite Hc; unfold redis_call; cbn;
    (split; [|split]);
    [ intros H1 H2; rewrite H1, H2; reflexivity
    | intros m H1; rewrite H1; reflexivity
    | intros m H1 H2; rewrite H1, H2; reflexivity
    | intros H1 H2; rewrite H1, H2; reflexivity
    | intros m H1; rewrite H1; reflexivity
    | intros m H1 H2; rewrite H1, H2; reflexivity
    | intros H1 H2; rewrite H1, H2; reflexivity
    | intros m H1; rewrite H1; reflexivity
    | intros m H1 H2; rewrite H1, H2; reflexivity ].
Qed.

Lemma add_messages_to_redis_writes_witness :
  add_messages_to_redis ManageMemory_default "s1"
    [("user", "hi"); ("ai_assistant", "hello")] (fun _ => None)
  = ([EvRedisClient "http://localhost:6379" "s1"], Raise (Exception add_error))
  /\ add_messages_to_redis
       {| redis_url := "redis+sentinel://localhost:26379/mymaster"; redis_timeout := 600 |}
       "s1" [("user", "hi"); ("ai_assistant", "hello")] (fun _ => None)
     = ([EvRedisClient "redis+sentinel://localhost:26379/mymaster" "s1";
         EvRedisAdd "s1" "human" "hi"; EvRedisAdd "s1" "ai" "hello"], Ret tt).
Proof.
  split.
  - apply (proj1 (add_messages_to_redis_writes ManageMemory_default "s1"
                    [("user", "hi"); ("ai_assistant", "hello")] (fun _ => None)
                    eq_refl eq_refl)).
    reflexivity.
  - apply (proj2 (add_messages_to_redis_writes
                    {| redis_url := "redis+sentinel://localhost:26379/mymaster";
                       redis_timeout := 600 |} "s1"
                    [("user", "hi"); ("ai_assistant", "hello")] (fun _ => None)
                    eq_refl eq_refl)); reflexivity.
Defined.

(** ** [GET /] and [POST /chat] *)

(** Both endpoints answer 200 exactly for [admin]/[password] ([GET /]
    with the welcome text, [POST /chat] with [null]) and 401
    ["Incorrect email or password"] otherwise; their own
    ["User not authorized."] branch is never reached. *)
Theorem plain_endpoints_auth (credentials : HTTPBasicCredentials) :
  (username credentials = correct_username /\ password credentials = correct_password ->
   get_root credentials = (200%Z, BodyString welcome_message)
   /\ post_chat credentials = (200%Z, BodyNull))
  /\ (~ (username credentials = correct_username
         /\ password credentials = correct_password) ->
      get_root credentials = (401%Z, BodyDetail auth_failure_detail)
      /\ post_chat credentials = (401%Z, BodyDetail auth_failure_detail))
  /\ snd (get_root credentials) <> BodyDetail "User not authorized."
  /\ snd (post_chat credentials) <> BodyDetail "User not authorized.".
Proof.
  unfold get_root, post_chat, basic_auth_middleware.
  destruct (String.eqb (username credentials) correct_username) eqn:Eu,
           (String.eqb (password credentials) correct_password) eqn:Ep;
    apply String.eqb_eq in Eu || apply String.eqb_neq in Eu;
    apply String.eqb_eq in Ep || apply String.eqb_neq in Ep; cbn;
    (split; [|split; [|split]]); try tauto;
    try (intros H; injection H; unfold auth_failure_detail; discriminate);
    try (intros H; discriminate H);
    try (intros H; exfalso; apply H; split; assumption);
    try (intros [H1 H2]; exfalso; tauto).
Qed.

Lemma plain_endpoints_auth_witness :
  get_root {| username := "admin"; password := "admin" |}
  = (401%Z, BodyDetail auth_failure_detail)
  /\ post_chat {| username := "admin"; password := "admin" |}
  = (401%Z, BodyDetail auth_failure_detail).
Proof.
  apply (proj1 (proj2 (plain_endpoints_auth {| username := "admin"; password := "admin" |}))).
  intros [_ H]. discriminate H.
Defined.

(** ** [POST /upload] as written *)

(** For every request and every state of the services, [POST /upload]
    makes no call at all and never answers 200: wrong credentials get 401
    ["Incorrect email or password"], right ones a bare 500. *)
Theorem post_upload_never_succeeds (w : world) (credentials : HTTPBasicCredentials)
  (request : UploadRequest) :
  fst (post_upload w credentials request) = []
  /\ http_status (snd (post_upload w credentials request)) <> 200%Z
  /\ snd (post_upload w credentials request)
     = (if andb (String.eqb (username credentials) correct_username)
                (String.eqb (password credentials) correct_password)
        then {| http_status := 500; http_body_of := ServerErrorBody |}
        else {| http_status := 401; http_body_of := DetailBody auth_failure_detail |}).
Proof.
  unfold post_upload, post_upload_in.
  fold (upload_data w request true).
  unfold basic_auth_middleware.
  destruct (andb _ _).
  - rewrite upload_data_name_error. cbn. repeat split; discriminate.
  - cbn. repeat split; discriminate.
Qed.

(** ** [loggingMiddleware] *)

(** The middleware hands back the response with its status but with its
    body iterator already drained, so the client gets an empty body; the
    log records the same status code, ["successful"] exactly below 400,
    and the parsed first body section when it is JSON. *)
Theorem loggingMiddleware_drains_body (json_loads : string -> option pyval)
  (request : HttpRequest) (response : StreamingResponse) :
  let (response', log) := loggingMiddleware json_loads request response in
  resp_status_code response' = resp_status_code response
  /\ body_iterator response' = []
  /\ log_status_code log = resp_status_code response
  /\ (log_status log = "successful" <-> (resp_status_code response < 400)%Z)
  /\ (log_status log = "failed" <-> (400 <= resp_status_code response)%Z)
  /\ (forall first rest v, body_iterator response = first :: rest ->
        json_loads first = Some v -> log_response_body log = v).
Proof.
  unfold loggingMiddleware. cbn.
  repeat split.
  - destruct (Z.ltb_spec (resp_status_code response) 400); intros Hs;
      [lia | discriminate Hs].
  - intros H. apply Z.ltb_lt in H. rewrite H. reflexivity.
  - destruct (Z.ltb_spec (resp_status_code response) 400); intros Hs;
      [discriminate Hs | lia].
  - intros H. apply Z.ltb_ge in H. rewrite H. reflexivity.
  - intros first rest v Hb Hj. unfold logged_response_body. rewrite Hb, Hj.
    reflexivity.
Qed.

Lemma loggingMiddleware_drains_body_witness :
  log_response_body
    (snd (loggingMiddleware (fun s => if String.eqb s "null" then Some PNone else None)
            {| req_path := "/"; req_method := "GET"; req_body := "" |}
            {| resp_status_code := 200; body_iterator := ["null"] |}))
  = PNone.
Proof.
  pose proof (loggingMiddleware_drains_body
                (fun s => if String.eqb s "null" then Some PNone else None)
                {| req_path := "/"; req_method := "GET"; req_body := "" |}
                {| resp_status_code := 200; body_iterator := ["null"] |}) as H.
  destruct (loggingMiddleware _ _ _) as [r' log] eqn:E.
  cbn [snd]. destruct H as (_ & _ & _ & _ & _ & H).
  apply (H "null" [] PNone); reflexivity.
Defined.

(** ** [Config] *)

(** Without [MODEL_TYPE] the import of [Config] fails with
    [AttributeError] ([None.lower()]).  With it, the provider is chosen on
    [MODEL_TYPE.lower()], so the case of the variable does not matter. *)
Theorem Config_model_type (env : ConfigEnv) :
  (getenv env "MODEL_TYPE" = None ->
   Config env = inl ("AttributeError", "'NoneType' object has no attribute 'lower'"))
  /\ (forall mt1 mt2, lower mt1 = lower mt2 -> config_llm env mt1 = config_llm env mt2).
Proof.
  split.
  - intros H. unfold Config. rewrite H. reflexivity.
  - intros mt1 mt2 H. unfold config_llm. rewrite H. reflexivity.
Qed.

(** An environment with only [MODEL_TYPE=OpenAI] set, where everything
    imports. *)
Definition env_openai_only : ConfigEnv :=
  {| getenv := fun v => if String.eqb v "MODEL_TYPE" then Some "OpenAI" else None;
     importable := fun _ => true;
     llm_error := fun _ => None;
     hf_error := fun _ => None |}.

Lemma Config_model_type_witness :
  config_llm env_openai_only "OpenAI" = config_llm env_openai_only "openai".
Proof.
  apply (proj2 (Config_model_type env_openai_only)). reflexivity.
Defined.

(** The variables each provider needs: when one of them is unset or
    empty, [Config] fails with that provider's [ValueError], before
    importing anything. *)
Theorem Config_missing_variables (env : ConfigEnv) (mt : string) :
  getenv env "MODEL_TYPE" = Some mt ->
  (lower mt = "claude" ->
   any_missing [getenv env "MODEL_NAME"; getenv env "ANTHROPIC_API_KEY"] = true ->
   Config env = inl ("ValueError", "model_name and anthropic_api_key must be specified"))
  /\ (lower mt = "openai" ->
      any_missing [getenv env "MODEL_NAME"; getenv env "OPENAI_API_KEY"] = true ->
      Config env = inl ("ValueError", "model_name and openai_api_key must be specified"))
  /\ (lower mt = "mistral" ->
      any_missing [getenv env "MODEL_PATH"] = true ->
      Config env = inl ("ValueError", "model_path must be specified")).
Proof.
  intros Hm. unfold Config, config_llm. rewrite Hm.
  split; [|split]; intros Hl Ha; rewrite Hl; cbn [String.eqb Ascii.eqb Bool.eqb];
    rewrite Ha; reflexivity.
Qed.

Lemma Config_missing_variables_witness :
  Config env_openai_only
  = inl ("ValueError", "model_name and openai_api_key must be specified").
Proof.
  apply (proj1 (proj2 (Config_missing_variables env_openai_only "OpenAI" eq_refl)));
    reflexivity.
Defined.

(** A [MODEL_TYPE] other than claude, openai and mistral is accepted
    silently: [Config] then has no [llm] at all. *)
Theorem Config_unknown_model_type (env : ConfigEnv) (mt : string) :
  getenv env "MODEL_TYPE" = Some mt ->
  ~ In (lower mt) ["claude"; "openai"; "mistral"] ->
  hf_error env config_hf = None ->
  Config env = inr {| model_type := mt; llm := None; hf := config_hf |}.
Proof.
  intros Hm Hn Hh. unfold Config, config_llm. rewrite Hm.
  destruct (String.eqb_spec (lower mt) "claude") as [E|_];
    [exfalso; apply Hn; left; exact (eq_sym E)|].
  destruct (String.eqb_spec (lower mt) "openai") as [E|_];
    [exfalso; apply Hn; right; left; exact (eq_sym E)|].
  destruct (String.eqb_spec (lower mt) "mistral") as [E|_];
    [exfalso; apply Hn; right; right; left; exact (eq_sym E)|].
  rewrite Hh. reflexivity.
Qed.

(** An environment with [MODEL_TYPE=gpt4]. *)
Definition env_unknown_type : ConfigEnv :=
  {| getenv := fun v => if String.eqb v "MODEL_TYPE" then Some "gpt4" else None;
     importable := fun _ => true;
     llm_error := fun _ => None;
     hf_error := fun _ => None |}.

Lemma Config_unknown_model_type_witness :
  Config env_unknown_type = inr {| model_type := "gpt4"; llm := None; hf := config_hf |}.
Proof.
  apply (Config_unknown_model_type env_unknown_type "gpt4").
  - reflexivity.
  - cbn. intros [H|[H|[H|[]]]]; discriminate H.
  - reflexivity.
Defined.

(** With its variables set and non-empty, its module importable and the
    constructors succeeding, each provider builds its model from exactly
    those variables (Claude at temperature 0.2, Mistral as a [llama]
    CTransformers model); when the module does not import, [Config] fails
    with the provider's [ImportError]. *)
Theorem Config_builds_llm (env : ConfigEnv) (mt : string) :
  getenv env "MODEL_TYPE" = Some mt ->
  hf_error env config_hf = None ->
  (forall name key,
     lower mt = "claude" ->
     getenv env "MODEL_NAME" = Some name -> name <> "" ->
     getenv env "ANTHROPIC_API_KEY" = Some key -> key <> "" ->
     (importable env "langchain_anthropic" = true ->
      llm_error env (ChatAnthropic name key "0.2") = None ->
      Config env = inr {| model_type := mt; llm := Some (ChatAnthropic name key "0.2");
                          hf := config_hf |})
     /\ (importable env "langchain_anthropic" = false ->
         Config env = inl ("ImportError",
           "Could not import module. Please install langchain_anthropic with `pip install langchain_anthropic`")))
  /\ (forall name key,
       lower mt = "openai" ->
       getenv env "MODEL_NAME" = Some name -> name <> "" ->
       getenv env "OPENAI_API_KEY" = Some key -> key <> "" ->
       (importable env "langchain_openai" = true ->
        llm_error env (ChatOpenAI name key) = None ->
        Config env = inr {| model_type := mt; llm := Some (ChatOpenAI name key);
                            hf := config_hf |})
       /\ (importable env "langchain_openai" = false ->
           Config env = inl ("ImportError",
             "Could not import module. Please install langchain_openai with `pip install langchain_openai`")))
  /\ (forall path,
       lower mt = "mistral" ->
       getenv env "MODEL_PATH" = Some path -> path <> "" ->
       let m := CTransformers path "llama"
                  [("max_new_tokens", "512"); ("temperature", "0.8");
                   ("context_length", "4000")] in
       (importable env "langchain_community.llms" = true ->
        llm_error env m = None ->
        Config env = inr {| model_type := mt; llm := Some m; hf := config_hf |})
       /\ (importable env "langchain_community.llms" = false ->
           Config env = inl ("ImportError",
             "Cannot import module. Please install ctransformers with `pip install ctransformers` and `pip install langchain`"))).
Proof.
  intros Hm Hh. unfold Config, config_llm, build_llm. rewrite Hm.
  split; [|split].
  - intros name key Hl Hn Hn' Hk Hk'. rewrite Hl. cbn [String.eqb Ascii.eqb Bool.eqb].
    rewrite Hn, Hk. cbn [any_missing existsb orb].
    apply String.eqb_neq in Hn', Hk'. rewrite Hn', Hk'. cbn [orb].
    split; [intros Hi He; rewrite Hi; cbn [unwrap negb]; rewrite He, Hh; reflexivity
           |intros Hi; rewrite Hi; reflexivity].
  - intros name key Hl Hn Hn' Hk Hk'. rewrite Hl. cbn [String.eqb Ascii.eqb Bool.eqb].
    rewrite Hn, Hk. cbn [any_missing existsb orb].
    apply String.eqb_neq in Hn', Hk'. rewrite Hn', Hk'. cbn [orb].
    split; [intros Hi He; rewrite Hi; cbn [unwrap negb]; rewrite He, Hh; reflexivity
           |intros Hi; rewrite Hi; reflexivity].
  - intros path Hl Hp Hp'. cbv zeta. rewrite Hl. cbn [String.eqb Ascii.eqb Bool.eqb].
    rewrite Hp. cbn [any_missing existsb orb].
    apply String.eqb_neq in Hp'. rewrite Hp'. cbn [orb].
    split; [intros Hi He; rewrite Hi; cbn [unwrap negb]; rewrite He, Hh; reflexivity
           |intros Hi; rewrite Hi; reflexivity].
Qed.

(** An environment for a local Mistral model. *)
Definition env_mistral : ConfigEnv :=
  {| getenv := fun v =>
       if String.eqb v "MODEL_TYPE" then Some "Mistral"
       else if String.eqb v "MODEL_PATH" then Some "mistral-7b.gguf" else None;
     importable := fun _ => true;
     llm_error := fun _ => None;
     hf_error := fun _ => None |}.

Lemma Config_builds_llm_witness :
  Config env_mistral
  = inr {| model_type := "Mistral";
           llm := Some (CTransformers "mistral-7b.gguf" "llama"
                          [("max_new_tokens", "512"); ("temperature", "0.8");
                           ("context_length", "4000")]);
           hf := config_hf |}.
Proof.
  apply (proj2 (proj2 (Config_builds_llm env_mistral "Mistral" eq_refl eq_refl))
           "mistral-7b.gguf" eq_refl eq_refl ltac:(discriminate)); reflexivity.
Defined.
